(** * 4CAT search worker: [backend/abstract/string_query.py]

    A shallow embedding of the [StringQuery] worker class and the properties
    of its query engine: mode selection and result handling in [work], the
    three executors, the dense-thread filters and the Sphinx escaping
    helper. *)

From Stdlib Require Import ZArith String Ascii List Bool Lia.
From Stdlib Require Import SpecFloat Sorted.
From stdpp Require Import base option list gmap strings pretty.

Open Scope string_scope.
Open Scope list_scope.
Open Scope Z_scope.

(** ** Python values used by the worker *)

(** Python's [float] is IEEE-754 binary64; [spec_float] with these two
    parameters is the Standard Library's specification of that format. *)
Definition prec : Z := 53.
Definition emax : Z := 1024.
Abbreviation float := spec_float.

(** A JSON number is decoded as an [int] or as a [float]. *)
Inductive number :=
  | NInt (z : Z)
  | NFloat (f : float).

(** Exceptions the modelled code can raise and does not catch itself. *)
Inductive exn :=
  | KeyError (key : string)
  | ZeroDivisionError
  | OverflowError.

Inductive outcome (A : Type) :=
  | Return (a : A)
  | Raise (e : exn).
Arguments Return {A} a.
Arguments Raise {A} e.

#[global] Instance outcome_ret : MRet outcome := @Return.
#[global] Instance outcome_bind : MBind outcome := fun A B f m =>
  match m with
  | Return a => f a
  | Raise e => Raise e
  end.

Module Py.

(** [float(x)] for an [int] rounds to nearest-even and raises
    [OverflowError] when the integer is out of range. *)
Definition float_of_int (z : Z) : outcome float :=
  match binary_normalize prec emax z 0 false with
  | S754_infinity _ => Raise OverflowError
  | f => Return f
  end.

Definition to_float (x : number) : outcome float :=
  match x with
  | NInt z => float_of_int z
  | NFloat f => Return f
  end.

(** An [int] as an exact (unrounded) operand of the division below. *)
Definition exact (z : Z) : float :=
  match z with
  | Z0 => S754_zero false
  | Zpos m => S754_finite false m 0
  | Zneg m => S754_finite true m 0
  end.

(** [a / b] on two [int]s: the correctly rounded quotient; a zero divisor
    raises [ZeroDivisionError]. *)
Definition truediv (a b : Z) : outcome float :=
  if b =? 0 then Raise ZeroDivisionError
  else match SFdiv prec emax (exact a) (exact b) with
       | S754_infinity _ => Raise OverflowError
       | q => Return q
       end.

(** [x * n] with a [float] on the left and an [int] on the right. *)
Definition mul_int (x : float) (n : Z) : outcome float :=
  y ← float_of_int n; mret (SFmul prec emax x y).

(** [x >= y] on floats. *)
Definition ge (x y : float) : bool := SFleb y x.

(** Truth value of a number, a string and a list. *)
Definition truthy_num (x : number) : bool :=
  match x with
  | NInt z => negb (z =? 0)
  | NFloat f => negb (SFeqb f (S754_zero false))
  end.

Definition truthy_str (s : string) : bool :=
  match s with EmptyString => false | _ => true end.

Definition truthy_list {A} (l : list A) : bool :=
  match l with [] => false | _ => true end.

(** [str(n)] for an [int]. *)
Definition str (z : Z) : string := pretty z.

(** [sep.join(parts)]. *)
Fixpoint join (sep : string) (parts : list string) : string :=
  match parts with
  | [] => ""
  | [p] => p
  | p :: rest => p +:+ sep +:+ join sep rest
  end.

(** [collections.Counter(keys)] and its lookup, which is [0] off the
    keys that were counted. *)
Definition Counter (keys : list Z) : gmap Z Z :=
  foldl (fun m k => <[k := default 0 (m !! k) + 1]> m) ∅ keys.

Definition count (c : gmap Z Z) (k : Z) : Z := default 0 (c !! k).

End Py.

(** ** Rows *)

(** A post row with the columns of [return_cols]. *)
Record post := {
  thread_id : Z;
  post_id : Z;
  timestamp : Z;
  body : string;
  subject : string;
  author : string;
  image_file : string;
  image_md5 : string;
  country_code : string;
  country_name : string
}.

Definition return_cols : list string :=
  ["thread_id"; "id"; "timestamp"; "body"; "subject"; "author"; "image_file";
   "image_md5"; "country_code"; "country_name"].

(** A row of the Sphinx index: the two ids the executor reads from it. *)
Record match_row := { m_post_id : Z; m_thread_id : Z }.

(** A row of the [threads_] table as selected by the dense filters. *)
Record thread_row := { t_id : Z; num_replies : Z }.

(** A positional SQL replacement. *)
Inductive sqlarg :=
  | AInt (z : Z)
  | ANum (n : number)
  | AStr (s : string)
  | ATuple (items : list string).

(** ** Observable effects

    Every call the worker makes on a collaborator is recorded, in order.
    Log lines are recorded by severity and format string; the values
    interpolated into them (wall-clock readings among them) are left out. *)
Inductive event :=
  | UpdateVersion
  | UpdateStatus (status : string)
  | LogInfo (fmt : string)
  | LogError (fmt : string)
  | SphinxConnect
  | SphinxClose
  | FetchSphinx (where_ : string) (replacements : list sqlarg)
  | FetchPosts (post_ids : list Z)
  | FetchThreads (thread_ids : list Z)
  | DbFetchall (sql : string) (replacements : list sqlarg)
  | PostsToCsv (posts : list post) (results_file : string)
  | QueryFinish (num_rows : Z)
  | JobFinish.

(** A computation yields the events it performed and how it ended. *)
Definition M (A : Type) : Type := list event * outcome A.

#[global] Instance M_ret : MRet M := fun A a => ([], Return a).
Definition events {A} (m : M A) : list event := fst m.
Definition result {A} (m : M A) : outcome A := snd m.

#[global] Instance M_bind : MBind M := fun A B f m =>
  match result m with
  | Return a => (events m ++ events (f a), result (f a))
  | Raise e => (events m, Raise e)
  end.

Definition emit (e : event) : M unit := ([e], Return tt).
Definition raise {A} (e : exn) : M A := ([], Raise e).
Definition lift {A} (r : outcome A) : M A := ([], r).

(** What the Sphinx backend answers: rows, or one of the two pymysql
    errors [execute_string_query] catches. *)
Inductive sphinx_answer :=
  | Matches (rows : list match_row)
  | OperationalError
  | ProgrammingError.

(** The collaborators of one worker: the class attribute [prefix], the three
    abstract methods a data source implements, and [self.db.fetchall], given
    once per shape of row the worker selects with it. *)
Record backend := {
  prefix : string;
  fetch_posts : list Z -> list post;
  fetch_threads : list Z -> list post;
  fetch_sphinx : string -> list sqlarg -> sphinx_answer;
  db_ids : string -> list sqlarg -> list Z;
  db_posts : string -> list sqlarg -> list post;
  db_threads : string -> list sqlarg -> list thread_row
}.

(** ** Escaping for SphinxQL *)

(** The character class of the regular expression in
    [escape_for_sphinx], in the order it is written there. *)
Definition special_chars : list ascii :=
  ["="; "("; ")"; "|"; "-"; "!"; "@"; "~"; "034"; "&"; "/"; "\"; "^"; "$";
   "="]%char.

Definition is_special (c : ascii) : bool :=
  existsb (Ascii.eqb c) special_chars.

(** [re.sub(class, r"\\\1", string)]: every character of the class is
    replaced by a backslash followed by itself. Strings are UTF-8 byte
    strings here; the class is ASCII, so no byte of a multi-byte character
    is in it. *)
Fixpoint escape_for_sphinx (s : string) : string :=
  match s with
  | EmptyString => EmptyString
  | String c rest =>
      if is_special c then String "\" (String c (escape_for_sphinx rest))
      else String c (escape_for_sphinx rest)
  end.

Section Worker.

Variable B : backend.

Definition call_fetch_posts (post_ids : list Z) : M (list post) :=
  emit (FetchPosts post_ids);; mret (fetch_posts B post_ids).

Definition call_fetch_threads (thread_ids : list Z) : M (list post) :=
  emit (FetchThreads thread_ids);; mret (fetch_threads B thread_ids).

Definition fetchall {A} (rows : string -> list sqlarg -> list A)
    (sql : string) (replacements : list sqlarg) : M (list A) :=
  emit (DbFetchall sql replacements);; mret (rows sql replacements).

(** *** Dense-thread filters *)

Definition thread_density (matching total : Z) : outcome float :=
  q ← Py.truediv matching total; Py.mul_int q 100.

(** The loop of [filter_dense] over the fetched thread rows. *)
Fixpoint dense_loop (keyword_posts : gmap Z Z) (percentage : number)
    (length_ : Z) (total_posts : list thread_row)
    (qualified_threads : list Z) : outcome (list Z) :=
  match total_posts with
  | [] => mret qualified_threads
  | total_post :: rest =>
      if num_replies total_post >=? length_ then
        thread_density ← thread_density
          (Py.count keyword_posts (t_id total_post)) (num_replies total_post);
        threshold ← Py.to_float percentage;
        if Py.ge thread_density threshold then
          dense_loop keyword_posts percentage length_ rest
            (qualified_threads ++ [t_id total_post])
        else dense_loop keyword_posts percentage length_ rest qualified_threads
      else dense_loop keyword_posts percentage length_ rest qualified_threads
  end.

Definition threads_sql : string :=
  "SELECT id, num_replies FROM threads_" +:+ prefix B +:+
  " WHERE id IN %s GROUP BY id".

Definition filter_dense (thread_ids : list Z) (keyword : string)
    (percentage : number) (length_ : Z) : M (list Z) :=
  emit (LogInfo "Filtering %s-dense threads from %i threads...");;
  let keyword_posts := Py.Counter thread_ids in
  let thread_ids := Py.str <$> thread_ids in
  total_posts ← fetchall (db_threads B) threads_sql [ATuple thread_ids];
  qualified_threads ← lift (dense_loop keyword_posts percentage length_ total_posts []);
  emit (LogInfo "Dense thread filtering finished, %i threads left.");;
  mret qualified_threads.

(** The loop of [filter_dense_country]: no length check. *)
Fixpoint dense_country_loop (country_posts : gmap Z Z) (percentage : number)
    (total_posts : list thread_row)
    (qualified_threads : list Z) : outcome (list Z) :=
  match total_posts with
  | [] => mret qualified_threads
  | total_post :: rest =>
      thread_density ← thread_density
        (Py.count country_posts (t_id total_post)) (num_replies total_post);
      threshold ← Py.to_float percentage;
      if Py.ge thread_density threshold then
        dense_country_loop country_posts percentage rest
          (qualified_threads ++ [t_id total_post])
      else dense_country_loop country_posts percentage rest qualified_threads
  end.

Definition filter_dense_country (thread_ids : list Z) (country : sqlarg)
    (percentage : number) : M (list Z) :=
  emit (LogInfo "Filtering %s-dense threads from %i threads...");;
  let country_posts := Py.Counter thread_ids in
  let thread_ids := Py.str <$> thread_ids in
  total_posts ← fetchall (db_threads B) threads_sql [ATuple thread_ids];
  qualified_threads ← lift (dense_country_loop country_posts percentage total_posts []);
  emit (LogInfo "Dense thread filtering finished, %i threads left.");;
  mret qualified_threads.


End Worker.

(** ** Query parameters

    The parameter dictionary of a [DataSet]. Keys the worker reads
    unconditionally are fields; keys it tests with [in], or that may be
    missing, are optional fields, and reading a missing one raises
    [KeyError]. *)
Record QuerySpec := {
  min_date : Z;
  max_date : Z;
  board : string;
  body_query : string;
  subject_query : string;
  full_thread : bool;
  dense_threads : bool;
  dense_percentage : number;
  dense_length : Z;
  random_amount : option Z;
  country_flag : option string;
  dense_country_percentage : option number
}.

Definition lookup_key {A} (key : string) (field : option A) : M A :=
  match field with
  | Some v => mret v
  | None => raise (KeyError key)
  end.

Module Sphinx.

(** The first block of [execute_string_query]: the WHERE clause and its
    replacements. *)
Definition build (query : QuerySpec) : string * list sqlarg :=
  let where_ := [] in
  let replacements := [] in
  let match_ := [] in
  let '(where_, replacements) :=
    if negb (min_date query =? 0)
    then (where_ ++ ["timestamp >= %s"], replacements ++ [AInt (min_date query)])
    else (where_, replacements) in
  let '(where_, replacements) :=
    if negb (max_date query =? 0)
    then (where_ ++ ["timestamp <= %s"], replacements ++ [AInt (max_date query)])
    else (where_, replacements) in
  let '(where_, replacements) :=
    if Py.truthy_str (board query) && negb (String.eqb (board query) "*")
    then (where_ ++ ["board = %s"], replacements ++ [AStr (board query)])
    else (where_, replacements) in
  let match_ :=
    if Py.truthy_str (body_query query)
    then match_ ++ ["@body " +:+ escape_for_sphinx (body_query query)]
    else match_ in
  let match_ :=
    if Py.truthy_str (subject_query query)
    then match_ ++ ["@subject " +:+ escape_for_sphinx (subject_query query)]
    else match_ in
  let '(where_, replacements) :=
    if Py.truthy_list match_
    then (where_ ++ ["MATCH(%s)"], replacements ++ [AStr (Py.join " " match_)])
    else (where_, replacements) in
  (Py.join " AND " where_, replacements).

End Sphinx.

Definition timeout_status : string :=
  "Your query timed out. This is likely because it matches too many posts. Try again with a narrower date range or a more specific search query.".

Definition crash_status : string :=
  "Error during query. 4CAT admins have been notified; try again later.".

(** Country codes the symbolic flag [europe] stands for. *)
Definition europe : list string :=
  ["GB"; "DE"; "NL"; "RU"; "FI"; "FR"; "RO"; "PL"; "SE"; "NO"; "ES"; "IE";
   "IT"; "SI"; "RS"; "DK"; "HR"; "GR"; "BG"; "BE"; "AT"; "HU"; "CH"; "PT";
   "LT"; "CZ"; "EE"; "UY"; "LV"; "SK"; "MK"; "UA"; "IS"; "BA"; "CY"; "GE";
   "LU"; "ME"; "AL"; "MD"; "IM"; "EU"; "BY"; "MC"; "AX"; "KZ"; "AM"; "GG";
   "JE"; "MT"; "FO"; "AZ"; "LI"; "AD"].

Section Executors.

Variable B : backend.

(** *** Full-text executor *)

Definition execute_string_query (query : QuerySpec) : M (option (list post)) :=
  let '(where_, replacements) := Sphinx.build query in
  emit (UpdateStatus "Searching for matches");;
  emit (FetchSphinx where_ replacements);;
  match fetch_sphinx B where_ replacements with
  | OperationalError =>
      emit (UpdateStatus timeout_status);;
      emit (LogInfo "Sphinx query (body: %s/subject: %s) timed out after %i seconds");;
      emit SphinxClose;;
      mret None
  | ProgrammingError =>
      emit (UpdateStatus crash_status);;
      emit (LogError "Sphinx crash during query %s: %s");;
      emit SphinxClose;;
      mret None
  | Matches posts =>
      emit (LogInfo "Sphinx query finished in %i seconds, %i results.");;
      emit (UpdateStatus ("Found " +:+ pretty (length posts) +:+
                          " matches. Collecting post data"));;
      emit SphinxClose;;
      if negb (Py.truthy_list posts) then
        emit (UpdateStatus "Query finished, but no results were found.");;
        mret None
      else
        emit (LogInfo "Running full posts query");;
        if negb (full_thread query) && negb (dense_threads query) then
          let post_ids := m_post_id <$> posts in
          posts ← call_fetch_posts B post_ids;
          emit (UpdateStatus "Post data collected");;
          emit (LogInfo "Full posts query finished in %i seconds.");;
          mret (Some posts)
        else
          let thread_ids := m_thread_id <$> posts in
          let fetch_all (thread_ids : list Z) : M (option (list post)) :=
            posts ← call_fetch_threads B thread_ids;
            emit (UpdateStatus "Post data collected");;
            emit (LogInfo "Full posts query finished in %i seconds.");;
            mret (Some posts) in
          if dense_threads query && Py.truthy_str (body_query query) then
            emit (UpdateStatus "Post data collected. Filtering dense threads");;
            thread_ids ← filter_dense B thread_ids (body_query query)
                           (dense_percentage query) (dense_length query);
            if negb (Py.truthy_list thread_ids) then mret (Some [])
            else fetch_all thread_ids
          else fetch_all thread_ids
  end.

(** *** Random-sample executor *)

Definition execute_random_query (query : QuerySpec) : M (list post) :=
  emit (UpdateStatus "Fetching random posts");;
  random_amount ← lookup_key "random_amount" (random_amount query);
  post_ids ←
    (if max_date query >? 0 then
       fetchall (db_ids B)
         ("SELECT id FROM posts_" +:+ prefix B +:+
          " WHERE timestamp >= %s AND timestamp <= %s ORDER BY random() LIMIT %s;")
         [AInt (min_date query); AInt (max_date query); AInt random_amount]
     else
       fetchall (db_ids B)
         ("SELECT id FROM posts_" +:+ prefix B +:+
          " WHERE timestamp >= %s ORDER BY random() LIMIT %s;")
         [AInt (min_date query); AInt random_amount]);
  posts ← call_fetch_posts B post_ids;
  emit (UpdateStatus "Post data collected");;
  mret posts.

(** *** Attribute (country) executor *)

Definition execute_country_query (query : QuerySpec) : M (list post) :=
  country_flag ← lookup_key "country_flag" (country_flag query);
  emit (UpdateStatus "Querying database for country-specific posts");;
  let '(operator, country_flag) :=
    if String.eqb country_flag "europe" then ("IN", ATuple europe)
    else ("=", AStr country_flag) in
  dense_country_percentage ←
    lookup_key "dense_country_percentage" (dense_country_percentage query);
  let columns :=
    if Py.truthy_num dense_country_percentage then "thread_id, id"
    else Py.join ", " return_cols in
  posts ←
    (if max_date query >? 0 then
       fetchall (db_posts B)
         ("SELECT " +:+ columns +:+ " FROM posts_" +:+ prefix B +:+
          " WHERE timestamp >= %s AND timestamp <= %s AND country_code " +:+
          operator +:+ " %s;")
         [AInt (min_date query); AInt (max_date query); country_flag]
     else
       fetchall (db_posts B)
         ("SELECT " +:+ columns +:+ " FROM posts_" +:+ prefix B +:+
          " WHERE timestamp >= %s AND country_code " +:+ operator +:+ " %s;")
         [AInt (min_date query); country_flag]);
  if negb (Py.truthy_list posts) then mret []
  else
    let done (posts : list post) : M (list post) :=
      emit (UpdateStatus ("Post data collected. " +:+ pretty (length posts) +:+
                          " country-specific posts found."));;
      mret posts in
    if Py.truthy_num dense_country_percentage then
      emit (UpdateStatus "Post data collected. Filtering dense threads");;
      let thread_ids := thread_id <$> posts in
      thread_ids ← filter_dense_country B thread_ids country_flag
                     dense_country_percentage;
      if negb (Py.truthy_list thread_ids) then mret []
      else
        posts ← call_fetch_threads B thread_ids;
        done posts
    else done posts.

End Executors.

(** ** The worker's entry point *)

(** What the worker reads from the [DataSet] its job refers to. *)
Record DataSet := {
  key : string;
  is_finished : bool;
  get_parameters : QuerySpec;
  get_results_path : string
}.

(** [path.replace("*", "")]. *)
Fixpoint strip_stars (path : string) : string :=
  match path with
  | EmptyString => EmptyString
  | String c rest =>
      if Ascii.eqb c "*" then strip_stars rest else String c (strip_stars rest)
  end.

(** Truth value of [posts], a list or [None]. *)
Definition truthy_posts (posts : option (list post)) : bool :=
  match posts with
  | Some l => Py.truthy_list l
  | None => false
  end.

(** [posts is not None]. *)
Definition is_not_None (posts : option (list post)) : bool :=
  match posts with
  | Some _ => true
  | None => false
  end.

Section Work.

Variable B : backend.

(** The [if]/[elif]/[else] of [work] that runs an executor. *)
Definition execute (query_parameters : QuerySpec) : M (option (list post)) :=
  if match random_amount query_parameters with
     | Some n => negb (n =? 0)
     | None => false
     end
  then posts ← execute_random_query B query_parameters; mret (Some posts)
  else if match country_flag query_parameters with
          | Some c => negb (String.eqb c "all")
          | None => false
          end
  then posts ← execute_country_query B query_parameters; mret (Some posts)
  else execute_string_query B query_parameters.

(** The tail of [work], from the result of the executor on. *)
Definition conclude (posts : option (list post)) (results_file : string) : M unit :=
  (if truthy_posts posts then
     emit (UpdateStatus "Writing posts to result file");;
     emit (PostsToCsv (default [] posts) results_file);;
     emit (UpdateStatus "Query finished, results are available.")
   else if is_not_None posts then
     emit (UpdateStatus "Query finished, no results found.")
   else mret tt);;
  let num_posts :=
    if truthy_posts posts then Z.of_nat (length (default [] posts)) else 0 in
  emit (QueryFinish num_posts);;
  emit JobFinish.

(** [work]; [dataset] is [None] when the [DataSet] constructor raises
    [TypeError] because the query does not exist. *)
Definition work (dataset : option DataSet) : M unit :=
  match dataset with
  | None =>
      emit (LogInfo "Query job %s refers to non-existent query, finishing.");;
      emit JobFinish
  | Some query =>
      if is_finished query then
        emit (LogInfo "Worker started for query %s, but query is already finished");;
        emit JobFinish
      else
        emit UpdateVersion;;
        emit SphinxConnect;;
        let query_parameters := get_parameters query in
        let results_file := strip_stars (get_results_path query) in
        (* log.info(str(query_parameters)): the whole line is a value *)
        emit (LogInfo "%s");;
        posts ← execute query_parameters;
        conclude posts results_file
  end.

End Work.

(** ** Ordering of posts *)

(** [p] comes no later than [q] in ascending (thread id, post id) order. *)
Definition post_leb (p q : post) : bool :=
  (thread_id p <? thread_id q) ||
  ((thread_id p =? thread_id q) && (post_id p <=? post_id q)).

(** The sequence is non-decreasing in that order. *)
Fixpoint ascending (posts : list post) : bool :=
  match posts with
  | p :: (q :: _) as rest => post_leb p q && ascending rest
  | _ => true
  end.

(** ** Vocabulary of the properties *)

(** The thread rows either dense filter gets for [thread_ids]. *)
Definition fetched_threads (B : backend) (thread_ids : list Z) : list thread_row :=
  db_threads B (threads_sql B) [ATuple (Py.str <$> thread_ids)].

(** The characters the specification lists as escaped. *)
Definition listed_specials : list ascii :=
  ["="; "("; ")"; "|"; "-"; "!"; "@"; "~"; "034"; "&"; "/"; "\"; "^"; "$"]%char.

(** Number of characters of [s] that are in the class. *)
Fixpoint count_special (s : string) : nat :=
  match s with
  | EmptyString => 0%nat
  | String c rest => ((if is_special c then 1 else 0) + count_special rest)%nat
  end.

(** Writing the result file is the one effect [work] keeps to itself. *)
Definition writes (e : event) : bool :=
  match e with
  | PostsToCsv _ _ => true
  | _ => false
  end.

(** A computation that never writes the result file. *)
Definition quiet {A} (m : M A) : Prop := existsb writes (events m) = false.

(** The answer of the index to the query built from [query] (phase 1). *)
Definition phase1 (B : backend) (query : QuerySpec) : sphinx_answer :=
  fetch_sphinx B (Sphinx.build query).1 (Sphinx.build query).2.

(** What the full-text executor does up to the answer of the index. *)
Definition searching (q : QuerySpec) : list event :=
  [UpdateStatus "Searching for matches";
   FetchSphinx (Sphinx.build q).1 (Sphinx.build q).2].

(** What [work] does before it runs an executor. *)
Definition started : list event := [UpdateVersion; SphinxConnect; LogInfo "%s"].

(** Modes of a query. *)
Inductive mode := RandomSample | AttributeFilter | FullText.

(** One run of the executor of a mode, as [work] calls it. *)
Definition run_mode (B : backend) (m : mode) (q : QuerySpec) : M (option (list post)) :=
  match m with
  | RandomSample => posts ← execute_random_query B q; mret (Some posts)
  | AttributeFilter => posts ← execute_country_query B q; mret (Some posts)
  | FullText => execute_string_query B q
  end.

(** Whether the country flag is present and not ["all"]. *)
Definition country_selected (q : QuerySpec) : bool :=
  match country_flag q with
  | Some c => negb (String.eqb c "all")
  | None => false
  end.

(** The mode as the specification words it: random sampling as soon as a
    count is present. *)
Definition mode_by_presence (q : QuerySpec) : mode :=
  if bool_decide (is_Some (random_amount q)) then RandomSample
  else if country_selected q then AttributeFilter
  else FullText.

(** The mode with a count of zero read as no count. *)
Definition mode_by_truth (q : QuerySpec) : mode :=
  if bool_decide (is_Some (random_amount q) /\ random_amount q <> Some 0)
  then RandomSample
  else if country_selected q then AttributeFilter
  else FullText.

(** [q] with the key [random_amount] removed. *)
Definition without_random_amount (q : QuerySpec) : QuerySpec :=
  {| min_date := min_date q; max_date := max_date q; board := board q;
     body_query := body_query q; subject_query := subject_query q;
     full_thread := full_thread q; dense_threads := dense_threads q;
     dense_percentage := dense_percentage q; dense_length := dense_length q;
     random_amount := None; country_flag := country_flag q;
     dense_country_percentage := dense_country_percentage q |}.

(** ** A table-backed data source for concrete runs *)

Module Samples.

Definition mk_post (tid pid : Z) (text : string) : post :=
  {| thread_id := tid; post_id := pid; timestamp := 1500000000 + pid;
     body := text; subject := ""; author := "Anonymous"; image_file := "";
     image_md5 := ""; country_code := "NL"; country_name := "Netherlands" |}.

Definition mk_thread (tid replies : Z) : thread_row :=
  {| t_id := tid; num_replies := replies |}.

Definition in_tuple (z : Z) (replacements : list sqlarg) : bool :=
  existsb (fun a => match a with
                    | ATuple items => bool_decide (Py.str z ∈ items)
                    | _ => false
                    end) replacements.

(** A data source that answers from two tables, in table order, and a
    fixed answer of the Sphinx index. *)
Definition store (posts : list post) (threads : list thread_row)
    (index : sphinx_answer) : backend :=
  {| prefix := "4chan";
     fetch_posts := fun ids => filter (fun p => post_id p ∈ ids) posts;
     fetch_threads := fun ids => filter (fun p => thread_id p ∈ ids) posts;
     fetch_sphinx := fun _ _ => index;
     db_ids := fun _ _ => post_id <$> posts;
     db_posts := fun _ _ => posts;
     db_threads := fun _ args => filter (fun t => in_tuple (t_id t) args = true) threads |}.

Definition hit (tid pid : Z) : match_row :=
  {| m_post_id := pid; m_thread_id := tid |}.

(** Thread 1 has ten replies, thread 2 five, thread 7 none. *)
Definition threads : list thread_row :=
  [mk_thread 1 10; mk_thread 2 5; mk_thread 7 0].

Definition posts : list post :=
  [mk_post 1 11 "first"; mk_post 1 12 "second"; mk_post 2 21 "third";
   mk_post 7 71 "lonely"].

Definition hits : list match_row :=
  [hit 1 11; hit 1 12; hit 1 13; hit 1 14; hit 2 21; hit 2 22; hit 2 23; hit 2 24].

Definition forum : backend := store posts threads (Matches hits).

Definition query : QuerySpec :=
  {| min_date := 1400000000; max_date := 0; board := "pol";
     body_query := "r/pol"; subject_query := "";
     full_thread := false; dense_threads := false;
     dense_percentage := NInt 50; dense_length := 0;
     random_amount := None; country_flag := None;
     dense_country_percentage := None |}.

End Samples.

Module DenseSample.

(** The sample query, asking for threads in which nine posts in ten match. *)
Definition query : QuerySpec :=
  {| min_date := 1400000000; max_date := 0; board := "pol";
     body_query := "kek"; subject_query := "";
     full_thread := false; dense_threads := true;
     dense_percentage := NInt 90; dense_length := 0;
     random_amount := None; country_flag := None;
     dense_country_percentage := None |}.

End DenseSample.

Module Unsorted.

(** The same forum with its post table stored newest thread first. *)
Definition posts : list post :=
  [Samples.mk_post 2 21 "third"; Samples.mk_post 1 11 "first";
   Samples.mk_post 1 12 "second"].

Definition forum : backend :=
  Samples.store posts Samples.threads (Matches Samples.hits).

End Unsorted.

Module RandomSamples.

(** A request for five random posts, and the same with a count of zero. *)
Definition five : QuerySpec :=
  {| min_date := 1400000000; max_date := 1500000000; board := "pol";
     body_query := ""; subject_query := "";
     full_thread := false; dense_threads := false;
     dense_percentage := NInt 0; dense_length := 0;
     random_amount := Some 5; country_flag := Some "all";
     dense_country_percentage := Some (NInt 0) |}.

Definition zero : QuerySpec :=
  {| min_date := 1400000000; max_date := 1500000000; board := "pol";
     body_query := ""; subject_query := "";
     full_thread := false; dense_threads := false;
     dense_percentage := NInt 0; dense_length := 0;
     random_amount := Some 0; country_flag := Some "all";
     dense_country_percentage := Some (NInt 0) |}.

End RandomSamples.

Module EmptySample.

(** A forum whose index still lists posts that are gone from the table. *)
Definition forum : backend :=
  Samples.store [] Samples.threads (Matches Samples.hits).

Definition dataset : DataSet :=
  {| key := "4chan-search-1"; is_finished := false;
     get_parameters := Samples.query;
     get_results_path := "/data/4chan-search-1-*.csv" |}.

(** The same job on a forum whose index times out. *)
Definition timed_out : backend :=
  Samples.store Samples.posts Samples.threads OperationalError.

End EmptySample.

(** ** Vocabulary of the further properties *)

(** A computation none of whose events satisfies [P]. *)
Definition never (P : event -> bool) {A} (m : M A) : Prop :=
  existsb P (events m) = false.

(** How many of the events satisfy [P]. *)
Fixpoint occurrences (P : event -> bool) (evs : list event) : nat :=
  match evs with
  | [] => 0%nat
  | e :: rest => ((if P e then 1 else 0) + occurrences P rest)%nat
  end.

(** The calls only [work] itself makes. *)
Definition of_work (e : event) : bool :=
  match e with
  | UpdateVersion | SphinxConnect | PostsToCsv _ _ | QueryFinish _ | JobFinish => true
  | _ => false
  end.

Definition is_job_finish (e : event) : bool :=
  match e with JobFinish => true | _ => false end.

Definition is_query_finish (e : event) : bool :=
  match e with QueryFinish _ => true | _ => false end.




Definition is_fetch_posts (e : event) : bool :=
  match e with FetchPosts _ => true | _ => false end.

Definition is_fetch_threads (e : event) : bool :=
  match e with FetchThreads _ => true | _ => false end.

Definition is_db_query (e : event) : bool :=
  match e with DbFetchall _ _ => true | _ => false end.

(** Any access to the post store: the two fetch methods and the database. *)
Definition is_store_access (e : event) : bool :=
  is_fetch_posts e || is_fetch_threads e || is_db_query e.


(** Number of [%s] placeholders in a query text. *)
Fixpoint placeholders (s : string) : nat :=
  match s with
  | EmptyString => 0%nat
  | String c rest =>
      match rest with
      | String c' rest' =>
          if Ascii.eqb c "%" && Ascii.eqb c' "s" then S (placeholders rest')
          else placeholders rest
      | EmptyString => 0%nat
      end
  end.

(** The four conditions a Sphinx WHERE clause is made of. *)
Definition where_templates : list string :=
  ["timestamp >= %s"; "timestamp <= %s"; "board = %s"; "MATCH(%s)"].

(** Reading an escaped text back: a backslash stands for the character
    after it. *)
Fixpoint unescape (s : string) : string :=
  match s with
  | EmptyString => EmptyString
  | String c rest =>
      if Ascii.eqb c "\" then
        match rest with
        | String c' rest' => String c' (unescape rest')
        | EmptyString => String c EmptyString
        end
      else String c (unescape rest)
  end.

(** How often thread [t] occurs in [thread_ids]: its number of matches. *)
Definition matches_in (thread_ids : list Z) (t : Z) : Z :=
  Z.of_nat (length (filter (fun x => x = t) thread_ids)).

(** Whether a thread row meets the density threshold, with the matches
    counted in [thread_ids]; a row on which the computation raises does not
    count as dense. *)
Definition is_dense (thread_ids : list Z) (percentage : number) (row : thread_row) : bool :=
  match thread_density (matches_in thread_ids (t_id row)) (num_replies row),
        Py.to_float percentage with
  | Return density, Return threshold => Py.ge density threshold
  | _, _ => false
  end.

(** Exceptions of the arithmetic in the dense filters. *)
Definition arithmetic (e : exn) : Prop :=
  e = ZeroDivisionError \/ e = OverflowError.


(** A threshold that converts to a float above zero. *)
Definition positive (percentage : number) : Prop :=
  exists f, Py.to_float percentage = Return f /\ SFltb (S754_zero false) f = true.

(** The accesses to the post store among the events, in order. *)
Definition store_accesses (evs : list event) : list event :=
  List.filter is_store_access evs.


Module HeapOrder.

(** A data source whose adapter answers in ascending order, while the post
    table itself is read newest thread first. *)
Definition forum : backend :=
  {| prefix := "4chan";
     fetch_posts := fun ids => filter (fun p => post_id p ∈ ids) Samples.posts;
     fetch_threads := fun ids => filter (fun p => thread_id p ∈ ids) Samples.posts;
     fetch_sphinx := fun _ _ => Matches Samples.hits;
     db_ids := fun _ _ => post_id <$> Unsorted.posts;
     db_posts := fun _ _ => Unsorted.posts;
     db_threads := fun _ args =>
       filter (fun t => Samples.in_tuple (t_id t) args = true) Samples.threads |}.

(** A request for the posts with a Dutch flag, without density filtering. *)
Definition query : QuerySpec :=
  {| min_date := 1400000000; max_date := 0; board := "pol";
     body_query := ""; subject_query := "";
     full_thread := false; dense_threads := false;
     dense_percentage := NInt 0; dense_length := 0;
     random_amount := None; country_flag := Some "NL";
     dense_country_percentage := Some (NInt 0) |}.

End HeapOrder.

(** ** The internal API: [backend/lib/api.py]

    [InternalAPI.process_request], and the truth value [api_response] takes
    of what it returns. *)

Module Api.

(** What [process_request] reads: the class names of the workers in the
    manager's pool, the clock, and the database. A query of the database
    answers [None] when the database is unavailable; of the rows of the
    posts and threads tables only the time column is read, of the rows of
    the jobs table only the job type. *)
Record env := {
  pool : list string;
  now : Z;
  fetch_times : string -> Z -> option (list Z);
  fetch_jobs : string -> option (list string)
}.

(** What [process_request] returns: a dictionary of counts, the dictionary
    with the one key [error], or [False]. *)
Inductive reply :=
  | Counts (counts : gmap string Z)
  | Failure (error : string)
  | NoReply.

(** [counts[key] += 1]. *)
Definition increment (key : string) (counts : gmap string Z) : outcome (gmap string Z) :=
  match counts !! key with
  | Some n => Return (<[key := n + 1]> counts)
  | None => Raise (KeyError key)
  end.

(** The loop that counts workers by class and jobs by type. *)
Fixpoint tally (names : list string) (counts : gmap string Z) : outcome (gmap string Z) :=
  match names with
  | [] => Return counts
  | name :: rest =>
      let counts := if decide (counts !! name = None) then <[name := 0]> counts
                    else counts in
      counts ← increment name counts;
      tally rest counts
  end.

(** [sum([counts[key] for key in counts])]. *)
Definition total (counts : gmap string Z) : Z :=
  map_fold (fun _ n acc => n + acc) 0 counts.

Definition with_total (counts : gmap string Z) : gmap string Z :=
  <["total" := total counts]> counts.

(** The loop over the items of the last day. *)
Fixpoint count_recent (now : Z) (times : list Z) (response : gmap string Z)
    : outcome (gmap string Z) :=
  match times with
  | [] => Return response
  | time :: rest =>
      response ← increment "1d" response;
      response ← (if time >? now - 60 then increment "1m" response
                  else Return response);
      response ← (if time >? now - 3600 then increment "1h" response
                  else Return response);
      count_recent now rest response
  end.

Definition fresh_response : gmap string Z :=
  <["1d" := 0]> (<["1h" := 0]> (<["1m" := 0]> ∅)).

(** The time column read for a request, and the query for the items of the
    last day. *)
Definition time_field (request : string) : string :=
  if String.eqb request "posts" then "timestamp" else "timestamp_scraped".

Definition times_sql (request : string) : string :=
  "SELECT * FROM " +:+ request +:+ " WHERE " +:+ time_field request +:+ " > %s".

Definition process_request (E : env) (request : string) : outcome reply :=
  if String.eqb request "workers" then
    workers ← tally (pool E) ∅;
    Return (Counts (with_total workers))
  else if String.eqb request "posts" || String.eqb request "threads" then
    let now := now E in
    let then_ := now - 86400 in
    match fetch_times E (times_sql request) then_ with
    | None => Return (Failure "Database unavailable")
    | Some items =>
        response ← count_recent now items fresh_response;
        Return (Counts response)
    end
  else if String.eqb request "jobs" then
    match fetch_jobs E "SELECT * FROM jobs" with
    | None => Return (Failure "Database unavailable")
    | Some jobs =>
        response ← tally jobs ∅;
        Return (Counts (with_total response))
    end
  else Return NoReply.

(** Truth value of a reply, as [api_response] tests it with
    [if not response]: [False] and the empty dictionary are false. *)
Definition truthy (r : reply) : bool :=
  match r with
  | Counts counts => negb (bool_decide (counts = ∅))
  | Failure _ => true
  | NoReply => false
  end.

(** The request names [process_request] knows. *)
Definition known : list string := ["workers"; "posts"; "threads"; "jobs"].

(** How often [name] occurs in [names]. *)
Definition occurs (name : string) (names : list string) : Z :=
  Z.of_nat (length (filter (fun n => n = name) names)).

(** How many of the times are later than [bound]. *)
Definition later_than (bound : Z) (times : list Z) : Z :=
  Z.of_nat (length (filter (fun t => bound < t) times)).

(** The response dictionary with the three counts. *)
Definition recent (minute hour day : Z) : gmap string Z :=
  <["1d" := day]> (<["1h" := hour]> (<["1m" := minute]> ∅)).

(** A manager with four workers, one of a class called [total], a database
    with four posts and three jobs, and no threads table. *)
Definition sample : env :=
  {| pool := ["Search4Chan"; "ThreadScraper"; "Search4Chan"; "total"];
     now := 1500000000;
     fetch_times := fun sql then_ =>
       if String.eqb sql "SELECT * FROM posts WHERE timestamp > %s"
       then Some (filter (fun t => then_ < t)
                    [1499999990; 1499999000; 1499950000; 1400000000])
       else None;
     fetch_jobs := fun _ => Some ["query"; "scrape"; "query"] |}.

End Api.

(** ** The migration agent: [helper-scripts/migrate.py]

    [make_version_comparable] and the decisions of the script up to the list
    of migration scripts it is going to run. A Python [str] is a sequence
    of code points; indexing past the end of a list raises [IndexError],
    which is [None] here. *)

Module Migrate.

Abbreviation str := (list N).

(** A literal of the script. *)
Definition lit (s : string) : str := N_of_ascii <$> list_ascii_of_string s.

(** The characters [str.strip] removes and [\s] matches: those for which
    [str.isspace] holds. *)
Definition is_space (c : N) : bool :=
  (((9 <=? c) && (c <=? 13)) || ((28 <=? c) && (c <=? 32)) ||
   (c =? 133) || (c =? 160) || (c =? 5760) ||
   ((8192 <=? c) && (c <=? 8202)) || (c =? 8232) || (c =? 8233) ||
   (c =? 8239) || (c =? 8287) || (c =? 12288))%N.

Fixpoint lstrip (s : str) : str :=
  match s with
  | c :: rest => if is_space c then lstrip rest else s
  | [] => []
  end.

Definition strip (s : str) : str := reverse (lstrip (reverse (lstrip s))).

(** [s.split(sep)] for a separator of one character. *)
Fixpoint split (sep : N) (s : str) : list str :=
  match s with
  | [] => [[]]
  | c :: rest =>
      if (c =? sep)%N then [] :: split sep rest
      else match split sep rest with
           | part :: parts => (c :: part) :: parts
           | [] => [[c]]
           end
  end.

(** [s.zfill(width)]: zeros on the left, after a leading sign. *)
Definition zfill (width : nat) (s : str) : str :=
  if (width <=? length s)%nat then s
  else
    let zeros := replicate (width - length s) 48%N in
    match s with
    | c :: rest => if ((c =? 43) || (c =? 45))%N then c :: zeros ++ rest else zeros ++ s
    | [] => zeros
    end.

Definition make_version_comparable (version : str) : option str :=
  let version := split 46%N (strip version) in
  major ← version !! 0%nat;
  minor ← version !! 1%nat;
  Some (zfill 3 major ++ lit "." ++ zfill 3 minor).

(** Comparison of two strings: by code point, a proper prefix first. *)
Fixpoint compare (s t : str) : comparison :=
  match s, t with
  | [], [] => Eq
  | [], _ :: _ => Lt
  | _ :: _, [] => Gt
  | c :: s', d :: t' =>
      match N.compare c d with
      | Eq => compare s' t'
      | other => other
      end
  end.

Definition gt (s t : str) : bool := match compare s t with Gt => true | _ => false end.
Definition ge (s t : str) : bool := match compare s t with Lt => false | _ => true end.
Definition le (s t : str) : bool := match compare s t with Gt => false | _ => true end.
Definition lt (s t : str) : bool := match compare s t with Lt => true | _ => false end.

(** [re.split(r"\s", text)[0].strip()]: the version in a version file. *)
Fixpoint first_field (text : str) : str :=
  match text with
  | c :: rest => if is_space c then [] else c :: first_field rest
  | [] => []
  end.

Definition read_version (text : str) : str := strip (first_field text).

(** How the script ends before it asks for confirmation: with an exit code,
    or with the migration scripts to run. *)
Inductive verdict :=
  | Exit (code : Z) (message : string)
  | Run (scripts : list str).

(** The versions a migration script is named after, from its file stem. *)
Definition migrate_minimum (stem : str) : option str :=
  split 45%N stem !! 1%nat ≫= make_version_comparable.

Definition migrate_target (stem : str) : option str :=
  split 45%N stem !! 2%nat ≫= make_version_comparable.

(** The loop that collects the relevant migration scripts. *)
Fixpoint collect (current_version_c target_version_c : str) (files : list str)
    (migrate_to_run : list str) : option (list str) :=
  match files with
  | [] => Some migrate_to_run
  | file :: rest =>
      minimum ← migrate_minimum file;
      target ← migrate_target file;
      if ge minimum current_version_c && le target target_version_c
      then collect current_version_c target_version_c rest (migrate_to_run ++ [file])
      else collect current_version_c target_version_c rest migrate_to_run
  end.

(** [sorted(files, key=...)]: a stable sort on the keys, here by insertion
    from the right. *)
Fixpoint insert_by_key (item : str * str) (sorted : list (str * str)) : list (str * str) :=
  match sorted with
  | [] => [item]
  | other :: rest =>
      if lt other.1 item.1 then other :: insert_by_key item rest
      else item :: sorted
  end.

Definition sort_by_key (items : list (str * str)) : list (str * str) :=
  foldr insert_by_key [] items.

Definition sorted_by_minimum (files : list str) : option (list str) :=
  keyed ← mapM (fun file => key ← migrate_minimum file; Some (key, file)) files;
  Some (snd <$> sort_by_key keyed).

(** The script from the version files to the scripts to run.
    [current_file] and [target_file] hold the text of [.current-version] and
    [VERSION], if the file exists; [files] are the stems of the files that
    match [migrate-*.py]. *)
Definition plan (current_file target_file : option str) (files : list str)
    : option verdict :=
  let current_version :=
    match current_file with
    | None => lit "1.9"
    | Some text => read_version text
    end in
  match target_file with
  | None =>
      Some (Exit 1 "No VERSION file available. Cannot determine what version to migrate to.")
  | Some text =>
      let target_version := read_version text in
      current_version_c ← make_version_comparable current_version;
      target_version_c ← make_version_comparable target_version;
      if bool_decide (current_version = target_version) then
        Some (Exit 0 "Already up-to-date.")
      else if negb (bool_decide (take 3 current_version_c = take 3 target_version_c)) then
        Some (Exit 1 "Cannot migrate between different major versions.")
      else if gt current_version_c target_version_c then
        Some (Exit 1 "Current 4CAT version more recent than checked out version. Migration is not possible.")
      else
        migrate_to_run ← collect current_version_c target_version_c files [];
        if bool_decide (migrate_to_run = []) then
          Some (Exit 0 "No migration scripts to run. You're good to go.")
        else
          migrate_to_run ← sorted_by_minimum migrate_to_run;
          Some (Run migrate_to_run)
  end.

(** The version string [major.minor] of two numbers. *)
Definition dotted (major minor : N) : str :=
  lit (pretty major) ++ lit "." ++ lit (pretty minor).

(** The key a migration script is sorted by, where it has one. *)
Definition key_of (file : str) : str := default [] (migrate_minimum file).

(** The three digits of a number below 1000. *)
Definition three (n : N) : str :=
  [48 + n / 100; 48 + (n / 10) mod 10; 48 + n mod 10]%N.

Definition below_1000 : list N := N.of_nat <$> seq 0 1000.

(** A numeral below 1000 is one to three digits, none of them a dot or a
    space, and is filled up to its three digits. *)
Definition numeral_ok (n : N) : bool :=
  bool_decide (zfill 3 (lit (pretty n)) = three n) &&
  forallb (fun c => negb (is_space c) && negb (c =? 46)%N) (lit (pretty n)) &&
  negb (bool_decide (lit (pretty n) = [])).

Definition digits_ok (n : N) : bool :=
  ((n / 100 <? 10) && ((n / 10) mod 10 <? 10) && (n mod 10 <? 10) &&
   (n =? 100 * (n / 100) + 10 * ((n / 10) mod 10) + n mod 10))%N.

(** The test of the collecting loop: a script is run when it starts at or
    after the current version and ends at or before the target version. *)
Definition wanted (current_version_c target_version_c file : str) : bool :=
  match migrate_minimum file, migrate_target file with
  | Some minimum, Some target =>
      ge minimum current_version_c && le target target_version_c
  | _, _ => false
  end.

(** The current version the script starts from. *)
Definition current_of (current_file : option str) : str :=
  match current_file with
  | None => lit "1.9"
  | Some text => read_version text
  end.

(** Three migration scripts, as the directory may list them, and the two
    version files. *)
Definition stems : list str :=
  [lit "migrate-1.10-1.11"; lit "migrate-1.12-1.13"; lit "migrate-1.9-1.10"].

Definition version_file (version : string) : str := lit version ++ [10%N].

End Migrate.

(** * Properties *)

(** ** Dense-thread filters *)

Section DenseFacts.

(** A thread row with no replies aborts the keyword loop as soon as the
    length check lets it through. *)
Lemma dense_loop_zero_replies c p len row rest acc :
  num_replies row = 0 -> len <= 0 ->
  dense_loop c p len (row :: rest) acc = Raise ZeroDivisionError.
Proof.
  intros Hz Hlen. simpl. rewrite Hz.
  replace (0 >=? len) with true by (symmetry; apply Z.geb_le; lia).
  reflexivity.
Qed.

Lemma dense_country_loop_zero_replies c p row rest acc :
  num_replies row = 0 ->
  dense_country_loop c p (row :: rest) acc = Raise ZeroDivisionError.
Proof. intros Hz. simpl. rewrite Hz. reflexivity. Qed.

(** With a vacuous length check the two loops are the same function. *)
Lemma dense_loops_agree c p rows :
  Forall (fun row => 0 <= num_replies row) rows ->
  forall acc, dense_country_loop c p rows acc = dense_loop c p 0 rows acc.
Proof.
  induction 1 as [|row rows Hrow _ IH]; intros acc; simpl; [reflexivity|].
  replace (num_replies row >=? 0) with true by (symmetry; apply Z.geb_le; lia).
  destruct (thread_density _ _) as [d|e]; simpl; [|reflexivity].
  destruct (Py.to_float p) as [t|e]; simpl; [|reflexivity].
  destruct (Py.ge d t); apply IH.
Qed.

(** Either loop only ever appends ids of the rows it walks, in order. *)
Lemma dense_loop_sublist c p len rows :
  forall acc out,
    dense_loop c p len rows acc = Return out ->
    exists kept, out = acc ++ kept /\ sublist kept (t_id <$> rows).
Proof.
  induction rows as [|row rows IH]; intros acc out; simpl.
  - intros [= <-]. exists []. rewrite app_nil_r. split; [reflexivity|constructor].
  - destruct (num_replies row >=? len).
    + destruct (thread_density _ _) as [d|e]; simpl; [|discriminate].
      destruct (Py.to_float p) as [t|e]; simpl; [|discriminate].
      destruct (Py.ge d t); intros H; apply IH in H as (kept & -> & Hs).
      * exists (t_id row :: kept). rewrite <- app_assoc. split; [reflexivity|].
        now apply sublist_skip.
      * exists kept. split; [reflexivity|]. now apply sublist_cons.
    + intros H; apply IH in H as (kept & -> & Hs).
      exists kept. split; [reflexivity|]. now apply sublist_cons.
Qed.

Lemma dense_country_loop_sublist c p rows :
  forall acc out,
    dense_country_loop c p rows acc = Return out ->
    exists kept, out = acc ++ kept /\ sublist kept (t_id <$> rows).
Proof.
  induction rows as [|row rows IH]; intros acc out; simpl.
  - intros [= <-]. exists []. rewrite app_nil_r. split; [reflexivity|constructor].
  - destruct (thread_density _ _) as [d|e]; simpl; [|discriminate].
    destruct (Py.to_float p) as [t|e]; simpl; [|discriminate].
    destruct (Py.ge d t); intros H; apply IH in H as (kept & -> & Hs).
    + exists (t_id row :: kept). rewrite <- app_assoc. split; [reflexivity|].
      now apply sublist_skip.
    + exists kept. split; [reflexivity|]. now apply sublist_cons.
Qed.

Variable B : backend.

Lemma filter_dense_result thread_ids keyword p len :
  result (filter_dense B thread_ids keyword p len) =
  dense_loop (Py.Counter thread_ids) p len (fetched_threads B thread_ids) [].
Proof.
  unfold filter_dense, fetched_threads. cbn.
  destruct (dense_loop _ _ _ _ _); reflexivity.
Qed.

Lemma filter_dense_country_result thread_ids country p :
  result (filter_dense_country B thread_ids country p) =
  dense_country_loop (Py.Counter thread_ids) p (fetched_threads B thread_ids) [].
Proof.
  unfold filter_dense_country, fetched_threads. cbn.
  destruct (dense_country_loop _ _ _ _); reflexivity.
Qed.

(** C9. When every fetched thread row has a non-negative reply count, the
    country filter is the keyword filter called with minimum length [0]:
    same events, same returned thread ids (or same exception). *)
Theorem filter_dense_country_is_filter_dense_0 thread_ids country keyword p :
  Forall (fun row => 0 <= num_replies row) (fetched_threads B thread_ids) ->
  filter_dense_country B thread_ids country p =
  filter_dense B thread_ids keyword p 0.
Proof.
  intros Hrows. unfold filter_dense_country, filter_dense, fetched_threads in *.
  cbn. now rewrite (dense_loops_agree _ _ _ Hrows).
Qed.

(** C10. When the thread rows fetched from the database carry each id at
    most once, so does the output of either dense filter, however often
    an id is repeated in [thread_ids]. *)
Theorem filter_dense_output_NoDup thread_ids keyword country p len :
  NoDup (t_id <$> fetched_threads B thread_ids) ->
  (forall out, result (filter_dense B thread_ids keyword p len) = Return out ->
               NoDup out /\ sublist out (t_id <$> fetched_threads B thread_ids)) /\
  (forall out, result (filter_dense_country B thread_ids country p) = Return out ->
               NoDup out /\ sublist out (t_id <$> fetched_threads B thread_ids)).
Proof.
  intros Hnd. split; intros out.
  - rewrite filter_dense_result. intros H.
    apply dense_loop_sublist in H as (kept & -> & Hs). simpl.
    split; [exact (sublist_NoDup _ _ Hnd Hs) | exact Hs].
  - rewrite filter_dense_country_result. intros H.
    apply dense_country_loop_sublist in H as (kept & -> & Hs). simpl.
    split; [exact (sublist_NoDup _ _ Hnd Hs) | exact Hs].
Qed.

End DenseFacts.

(** The spec's own example: of threads 1 (10 replies, 4 matches) and 2
    (5 replies, 4 matches) only thread 2 is 50%-dense; with minimum length 6
    neither qualifies. *)
Example filter_dense_spec_example :
  result (filter_dense Samples.forum [1; 1; 1; 1; 2; 2; 2; 2] "kw" (NInt 50) 0)
    = Return [2] /\
  result (filter_dense Samples.forum [1; 1; 1; 1; 2; 2; 2; 2] "kw" (NInt 50) 6)
    = Return [].
Proof. split; vm_compute; reflexivity. Qed.

(** C2. A thread row with zero replies makes both dense filters raise
    [ZeroDivisionError]: the keyword filter with minimum length [0], and the
    country filter. *)
Theorem filter_dense_zero_replies_raises :
  result (filter_dense Samples.forum [7] "kw" (NInt 50) 0)
    = Raise ZeroDivisionError /\
  result (filter_dense_country Samples.forum [7] (AStr "NL") (NInt 50))
    = Raise ZeroDivisionError.
Proof. split; vm_compute; reflexivity. Qed.

Lemma filter_dense_country_is_filter_dense_0_witness :
  filter_dense_country Samples.forum [1; 1; 1; 1; 2; 2; 2; 2] (AStr "NL") (NInt 50)
  = filter_dense Samples.forum [1; 1; 1; 1; 2; 2; 2; 2] "kw" (NInt 50) 0.
Proof.
  apply (filter_dense_country_is_filter_dense_0 Samples.forum).
  vm_compute. repeat constructor; discriminate.
Defined.

Lemma filter_dense_output_NoDup_witness :
  NoDup (t_id <$> fetched_threads Samples.forum [1; 1; 2; 2; 2]) /\
  result (filter_dense Samples.forum [1; 1; 2; 2; 2] "kw" (NInt 50) 0) = Return [2] /\
  NoDup [2].
Proof.
  assert (Hrows : NoDup (t_id <$> fetched_threads Samples.forum [1; 1; 2; 2; 2])).
  { apply (bool_decide_unpack _). vm_compute. reflexivity. }
  assert (Hout : result (filter_dense Samples.forum [1; 1; 2; 2; 2] "kw" (NInt 50) 0)
                 = Return [2]).
  { vm_compute. reflexivity. }
  split; [exact Hrows|]. split; [exact Hout|].
  exact (proj1 (proj1 (filter_dense_output_NoDup Samples.forum [1; 1; 2; 2; 2]
                         "kw" (AStr "NL") (NInt 50) 0 Hrows) [2] Hout)).
Defined.

(** ** Escaping *)

Lemma is_special_listed (c : ascii) :
  is_special c = bool_decide (c ∈ listed_specials).
Proof.
  destruct c as [[] [] [] [] [] [] [] []]; vm_compute; reflexivity.
Qed.

Lemma escape_for_sphinx_app (p q : string) :
  escape_for_sphinx (p +:+ q) = escape_for_sphinx p +:+ escape_for_sphinx q.
Proof.
  induction p as [|c p IH]; simpl; [reflexivity|].
  destruct (is_special c); simpl; now rewrite IH.
Qed.

(** C7. The class of [escape_for_sphinx] is exactly the listed characters;
    at every position of the input the character is copied, after one
    inserted backslash when it is in the class and after nothing otherwise,
    so the output is longer by one per such character; and a string with
    none of the listed characters is returned as it is. *)
Theorem escape_for_sphinx_spec :
  (forall c, is_special c = true <-> c ∈ listed_specials) /\
  (forall p c q,
      escape_for_sphinx (p +:+ String c q) =
      escape_for_sphinx p +:+ (if is_special c then "\" else "") +:+
      String c (escape_for_sphinx q)) /\
  (forall s, String.length (escape_for_sphinx s) =
             (String.length s + count_special s)%nat) /\
  (forall s, (forall c, c ∈ listed_specials -> c ∉ list_ascii_of_string s) ->
             escape_for_sphinx s = s).
Proof.
  split; [|split; [|split]].
  - intros c. rewrite is_special_listed. apply bool_decide_eq_true.
  - intros p c q. rewrite escape_for_sphinx_app. simpl.
    destruct (is_special c); reflexivity.
  - induction s as [|c s IH]; simpl; [reflexivity|].
    destruct (is_special c); simpl; rewrite IH; lia.
  - induction s as [|c s IH]; simpl; intros Hnone; [reflexivity|].
    assert (Hc : is_special c = false).
    { rewrite is_special_listed. apply bool_decide_eq_false.
      intros Hin. apply (Hnone c Hin). left. }
    rewrite Hc, IH; [reflexivity|].
    intros c' Hin Hs. apply (Hnone c' Hin). now right.
Qed.

Lemma escape_for_sphinx_spec_witness :
  escape_for_sphinx "r/pol" = "r\/pol" /\
  escape_for_sphinx "kek 2017" = "kek 2017".
Proof.
  destruct escape_for_sphinx_spec as (_ & Hins & _ & Hid). split.
  - exact (Hins "r" "/"%char "pol").
  - apply Hid. intros c Hin.
    repeat (apply elem_of_cons in Hin as [-> | Hin]);
      try (apply (bool_decide_unpack _); vm_compute; reflexivity).
    now apply elem_of_nil in Hin.
Defined.

(** ** Computations that leave the result file alone *)

Lemma quiet_ret {A} (a : A) : quiet (mret a).
Proof. reflexivity. Qed.

Lemma quiet_raise {A} (e : exn) : quiet (@raise A e).
Proof. reflexivity. Qed.

Lemma quiet_lift {A} (r : outcome A) : quiet (lift r).
Proof. reflexivity. Qed.

Lemma quiet_emit (e : event) : writes e = false -> quiet (emit e).
Proof. unfold quiet. simpl. now intros ->. Qed.

Lemma quiet_bind {A C} (m : M A) (f : A -> M C) :
  quiet m -> (forall a, quiet (f a)) -> quiet (m ≫= f).
Proof.
  unfold quiet. intros Hm Hf. unfold mbind, M_bind.
  destruct (result m) as [a|e]; unfold events at 1; simpl; [|exact Hm].
  rewrite existsb_app, Hm. apply Hf.
Qed.

Lemma quiet_not_written {A} (m : M A) (posts : list post) (file : string) :
  quiet m -> PostsToCsv posts file ∉ events m.
Proof.
  unfold quiet. intros Hq Hin.
  assert (existsb writes (events m) = true) as Ht; [|congruence].
  apply existsb_exists. exists (PostsToCsv posts file).
  split; [now apply list_elem_of_In | reflexivity].
Qed.

Create HintDb quiet.
#[export] Hint Resolve quiet_ret quiet_raise quiet_lift : quiet.
#[export] Hint Extern 1 (quiet (emit _)) => apply quiet_emit; reflexivity : quiet.
#[export] Hint Extern 2 (quiet (_ ≫= _)) => apply quiet_bind; [|intros ?] : quiet.
#[export] Hint Extern 3 (quiet (if ?b then _ else _)) => destruct b : quiet.

Section ExecutorFacts.

Variable B : backend.

Lemma quiet_lookup_key {A} k (field : option A) : quiet (lookup_key k field).
Proof. destruct field; simpl; auto with quiet. Qed.

Lemma quiet_fetchall {A} (rows : string -> list sqlarg -> list A) sql args :
  quiet (fetchall rows sql args).
Proof. unfold fetchall. auto with quiet. Qed.

Lemma quiet_call_fetch_posts ids : quiet (call_fetch_posts B ids).
Proof. unfold call_fetch_posts. auto with quiet. Qed.

Lemma quiet_call_fetch_threads ids : quiet (call_fetch_threads B ids).
Proof. unfold call_fetch_threads. auto with quiet. Qed.

Hint Resolve quiet_lookup_key quiet_fetchall quiet_call_fetch_posts
  quiet_call_fetch_threads : quiet.

Lemma quiet_filter_dense ids keyword p len :
  quiet (filter_dense B ids keyword p len).
Proof. unfold filter_dense. auto 10 with quiet. Qed.

Lemma quiet_filter_dense_country ids country p :
  quiet (filter_dense_country B ids country p).
Proof. unfold filter_dense_country. auto 10 with quiet. Qed.

Hint Resolve quiet_filter_dense quiet_filter_dense_country : quiet.

Lemma quiet_execute_string_query q : quiet (execute_string_query B q).
Proof.
  unfold execute_string_query. destruct (Sphinx.build q) as [w r].
  destruct (fetch_sphinx B w r); auto 20 with quiet.
Qed.

Lemma quiet_execute_random_query q : quiet (execute_random_query B q).
Proof. unfold execute_random_query. auto 20 with quiet. Qed.

Lemma quiet_execute_country_query q : quiet (execute_country_query B q).
Proof.
  unfold execute_country_query.
  apply quiet_bind; [auto with quiet|intros c].
  apply quiet_bind; [auto with quiet|intros _].
  destruct (String.eqb c "europe"); auto 20 with quiet.
Qed.

Lemma quiet_execute q : quiet (execute B q).
Proof.
  unfold execute.
  pose proof (quiet_execute_string_query q).
  pose proof (quiet_execute_random_query q).
  pose proof (quiet_execute_country_query q).
  repeat case_match; auto with quiet.
Qed.

End ExecutorFacts.

(** ** The full-text executor *)

Section FullText.

Variable B : backend.
Variable q : QuerySpec.

(** C6. A timeout and a crash of the index query take different branches
    with the same result [None]. The timeout sets the status that tells the
    user the query matches too many posts and how to narrow it, and logs at
    info level; the crash sets the status that the admins have been notified
    and to try again later, and logs at error level. Either closes the
    Sphinx connection as its last call before it returns. *)
Theorem phase1_failures_classified :
  (phase1 B q = OperationalError ->
   execute_string_query B q =
     ([UpdateStatus "Searching for matches";
       FetchSphinx (Sphinx.build q).1 (Sphinx.build q).2;
       UpdateStatus
         "Your query timed out. This is likely because it matches too many posts. Try again with a narrower date range or a more specific search query.";
       LogInfo "Sphinx query (body: %s/subject: %s) timed out after %i seconds";
       SphinxClose], Return None)) /\
  (phase1 B q = ProgrammingError ->
   execute_string_query B q =
     ([UpdateStatus "Searching for matches";
       FetchSphinx (Sphinx.build q).1 (Sphinx.build q).2;
       UpdateStatus
         "Error during query. 4CAT admins have been notified; try again later.";
       LogError "Sphinx crash during query %s: %s";
       SphinxClose], Return None)).
Proof.
  unfold phase1, execute_string_query.
  destruct (Sphinx.build q) as [w r]. simpl.
  split; intros ->; reflexivity.
Qed.

(** C4. No match in phase 1 gives [None] after the "no results" status,
    with no fetch from the post store; a non-empty match set that the
    dense filter narrows to nothing gives the empty list, again with no
    fetch after the filter's own query. *)
Theorem full_text_null_versus_empty :
  (phase1 B q = Matches [] ->
   execute_string_query B q =
     (searching q ++
      [LogInfo "Sphinx query finished in %i seconds, %i results.";
       UpdateStatus "Found 0 matches. Collecting post data";
       SphinxClose;
       UpdateStatus "Query finished, but no results were found."],
      Return None)) /\
  (forall rows,
     phase1 B q = Matches rows -> rows <> [] ->
     dense_threads q = true -> body_query q <> "" ->
     let narrowing :=
       filter_dense B (m_thread_id <$> rows) (body_query q)
         (dense_percentage q) (dense_length q) in
     result narrowing = Return [] ->
     execute_string_query B q =
       (searching q ++
        [LogInfo "Sphinx query finished in %i seconds, %i results.";
         UpdateStatus ("Found " +:+ pretty (length rows) +:+
                       " matches. Collecting post data");
         SphinxClose;
         LogInfo "Running full posts query";
         UpdateStatus "Post data collected. Filtering dense threads"] ++
        events narrowing,
        Return (Some []))).
Proof.
  unfold phase1, execute_string_query, searching.
  destruct (Sphinx.build q) as [w r]. cbn [fst snd]. split.
  - intros ->. reflexivity.
  - intros rows -> Hrows Hdense Hbody.
    destruct rows as [|row rows]; [congruence|].
    rewrite Hdense. destruct (body_query q) as [|c kw] eqn:Hkw; [congruence|].
    rewrite andb_false_r. cbn [Py.truthy_list Py.truthy_str negb andb].
    generalize (filter_dense B (m_thread_id <$> row :: rows) (String c kw)
                  (dense_percentage q) (dense_length q)).
    intros [evs res] Hnarrow. simpl in Hnarrow. subst res.
    cbn -[pretty String.append]. now rewrite app_nil_r.
Qed.

End FullText.

Lemma phase1_failures_classified_witness :
  execute_string_query
    (Samples.store Samples.posts Samples.threads OperationalError) Samples.query
  = ([UpdateStatus "Searching for matches";
      FetchSphinx "timestamp >= %s AND board = %s AND MATCH(%s)"
        [AInt 1400000000; AStr "pol"; AStr "@body r\/pol"];
      UpdateStatus
        "Your query timed out. This is likely because it matches too many posts. Try again with a narrower date range or a more specific search query.";
      LogInfo "Sphinx query (body: %s/subject: %s) timed out after %i seconds";
      SphinxClose], Return None) /\
  execute_string_query
    (Samples.store Samples.posts Samples.threads ProgrammingError) Samples.query
  = ([UpdateStatus "Searching for matches";
      FetchSphinx "timestamp >= %s AND board = %s AND MATCH(%s)"
        [AInt 1400000000; AStr "pol"; AStr "@body r\/pol"];
      UpdateStatus
        "Error during query. 4CAT admins have been notified; try again later.";
      LogError "Sphinx crash during query %s: %s";
      SphinxClose], Return None).
Proof.
  split.
  - apply (proj1 (phase1_failures_classified
                    (Samples.store Samples.posts Samples.threads OperationalError)
                    Samples.query)).
    reflexivity.
  - apply (proj2 (phase1_failures_classified
                    (Samples.store Samples.posts Samples.threads ProgrammingError)
                    Samples.query)).
    reflexivity.
Defined.

Lemma full_text_null_versus_empty_witness :
  result (execute_string_query
            (Samples.store Samples.posts Samples.threads (Matches [])) Samples.query)
  = Return None /\
  result (execute_string_query Samples.forum DenseSample.query) = Return (Some []).
Proof.
  split.
  - rewrite (proj1 (full_text_null_versus_empty
                      (Samples.store Samples.posts Samples.threads (Matches []))
                      Samples.query)); reflexivity.
  - rewrite (proj2 (full_text_null_versus_empty Samples.forum DenseSample.query)
               Samples.hits); first [reflexivity | discriminate].
Defined.

(** ** Order of the returned posts *)

Section Order.

Variable B : backend.
Variable q : QuerySpec.

(** What the full-text executor returns is empty or comes unchanged from
    one of the adapter's two fetch operations. *)
Lemma execute_string_query_rows posts :
  result (execute_string_query B q) = Return (Some posts) ->
  posts = [] \/ (exists ids, posts = fetch_posts B ids) \/
  (exists ids, posts = fetch_threads B ids).
Proof.
  unfold execute_string_query. destruct (Sphinx.build q) as [w r].
  destruct (fetch_sphinx B w r) as [[|row rows]| |]; try (cbn; discriminate).
  cbn [Py.truthy_list negb].
  destruct (negb (full_thread q) && negb (dense_threads q)).
  - cbn -[pretty String.append]. intros [= <-]. eauto.
  - destruct (dense_threads q && Py.truthy_str (body_query q)).
    + generalize (filter_dense B (m_thread_id <$> row :: rows) (body_query q)
                    (dense_percentage q) (dense_length q)).
      intros [evs [[|t out]|e]]; cbn -[pretty String.append];
        first [discriminate | intros [= <-]]; eauto.
    + cbn -[pretty String.append]. intros [= <-]. eauto.
Qed.

Lemma execute_random_query_rows posts :
  result (execute_random_query B q) = Return posts ->
  exists ids, posts = fetch_posts B ids.
Proof.
  unfold execute_random_query.
  destruct (random_amount q) as [n|]; [|cbn; discriminate].
  destruct (max_date q >? 0); cbn -[String.append]; intros [= <-]; eauto.
Qed.

Lemma execute_country_query_rows posts :
  result (execute_country_query B q) = Return posts ->
  posts = [] \/ (exists sql args, posts = db_posts B sql args) \/
  (exists ids, posts = fetch_threads B ids).
Proof.
  unfold execute_country_query.
  destruct (country_flag q) as [c|]; [|cbn; discriminate].
  destruct (dense_country_percentage q) as [p|];
    cbn -[pretty String.append Py.join filter_dense_country];
    destruct (String.eqb c "europe"); try discriminate;
    destruct (max_date q >? 0);
    cbn -[pretty String.append Py.join filter_dense_country];
    match goal with
    | |- context [db_posts B ?sql ?args] =>
        destruct (db_posts B sql args) as [|row rows] eqn:Hrows
    end;
    cbn -[pretty String.append Py.join filter_dense_country];
    try (intros [= <-]; eauto; fail);
    destruct (Py.truthy_num p);
    cbn -[pretty String.append Py.join filter_dense_country];
    try (intros [= <-]; right; left; eauto; fail);
    match goal with
    | |- context [filter_dense_country B ?ids ?c ?p] =>
        generalize (filter_dense_country B ids c p)
    end;
    intros [evs [[|t out]|e]]; cbn -[pretty String.append Py.join];
    first [discriminate | intros [= <-]]; eauto.
Qed.

Lemma execute_country_query_dense_rows p posts :
  dense_country_percentage q = Some p ->
  Py.truthy_num p = true ->
  result (execute_country_query B q) = Return posts ->
  posts = [] \/ (exists ids, posts = fetch_threads B ids).
Proof.
  intros Hp Hdense. unfold execute_country_query. rewrite Hp.
  destruct (country_flag q) as [c|]; [|cbn; discriminate].
  cbn -[pretty String.append Py.join filter_dense_country].
  rewrite Hdense.
  destruct (String.eqb c "europe");
    destruct (max_date q >? 0);
    cbn -[pretty String.append Py.join filter_dense_country];
    match goal with
    | |- context [db_posts B ?sql ?args] =>
        destruct (db_posts B sql args) as [|row rows] eqn:Hrows
    end;
    cbn -[pretty String.append Py.join filter_dense_country];
    try (intros [= <-]; eauto; fail);
    match goal with
    | |- context [filter_dense_country B ?ids ?c ?p] =>
        generalize (filter_dense_country B ids c p)
    end;
    intros [evs [[|t out]|e]]; cbn -[pretty String.append Py.join];
    first [discriminate | intros [= <-]]; eauto.
Qed.

End Order.

Section Ascending.

Lemma post_leb_spec p r :
  post_leb p r = true <->
  thread_id p < thread_id r \/
  (thread_id p = thread_id r /\ post_id p <= post_id r).
Proof.
  unfold post_leb.
  rewrite orb_true_iff, andb_true_iff, Z.ltb_lt, Z.eqb_eq, Z.leb_le.
  reflexivity.
Qed.

Lemma post_leb_trans p r s :
  post_leb p r = true -> post_leb r s = true -> post_leb p s = true.
Proof. rewrite !post_leb_spec. lia. Qed.

Lemma ascending_cons p l :
  ascending (p :: l) = true <->
  Forall (fun r => post_leb p r = true) l /\ ascending l = true.
Proof.
  revert p. induction l as [|r l IH]; intros p.
  - simpl. split; [intros _; split; [constructor|reflexivity] | reflexivity].
  - change (ascending (p :: r :: l)) with (post_leb p r && ascending (r :: l)).
    rewrite andb_true_iff. split.
    + intros [Hpr Hrl]. split; [|exact Hrl].
      constructor; [exact Hpr|].
      apply IH in Hrl as [Hr _].
      eapply Forall_impl; [exact Hr|].
      intros s Hrs. exact (post_leb_trans _ _ _ Hpr Hrs).
    + intros [Hall Hrl]. split; [|exact Hrl]. now inversion Hall.
Qed.

(** A source that answers in the order of an ascending table answers in
    ascending order. *)
Lemma ascending_filter (P : post -> Prop) `{forall p, Decision (P p)} l :
  ascending l = true -> ascending (filter P l) = true.
Proof.
  induction l as [|p l IH]; [reflexivity|].
  intros Hpl. apply ascending_cons in Hpl as [Hall Hl].
  rewrite filter_cons. destruct (decide (P p)); [|now apply IH].
  apply ascending_cons. split; [|now apply IH].
  apply Forall_forall. intros r Hr.
  apply list_elem_of_filter in Hr as [_ Hr].
  revert r Hr. now apply Forall_forall.
Qed.

End Ascending.

(** C3 (as the code has it). The executors do not sort: the order of the
    posts is the one of the adapter's [fetch_posts] and [fetch_threads]. So
    when these two answer in ascending (thread id, post id) order, the
    full-text executor and the random executor return their posts in that
    order, and so does the country executor when it filters dense threads:
    each returns an empty list or the rows of one adapter call, as they were
    given. Without that filter the country executor returns the rows of its
    own post query, which this statement leaves open. *)
Theorem executors_keep_adapter_order (B : backend) (q : QuerySpec) :
  (forall ids, ascending (fetch_posts B ids) = true) ->
  (forall ids, ascending (fetch_threads B ids) = true) ->
  (forall posts,
     result (execute_string_query B q) = Return (Some posts) ->
     (posts = [] \/ (exists ids, posts = fetch_posts B ids) \/
      (exists ids, posts = fetch_threads B ids)) /\
     ascending posts = true) /\
  (forall posts,
     result (execute_random_query B q) = Return posts ->
     (exists ids, posts = fetch_posts B ids) /\ ascending posts = true) /\
  (forall p posts,
     dense_country_percentage q = Some p ->
     Py.truthy_num p = true ->
     result (execute_country_query B q) = Return posts ->
     (posts = [] \/ (exists ids, posts = fetch_threads B ids)) /\
     ascending posts = true).
Proof.
  intros Hposts Hthreads. split; [|split].
  - intros posts Hrun.
    apply execute_string_query_rows in Hrun as Hfrom. split; [exact Hfrom|].
    destruct Hfrom as [->|[[ids ->]|[ids ->]]]; auto.
  - intros posts Hrun.
    apply execute_random_query_rows in Hrun as Hfrom. split; [exact Hfrom|].
    destruct Hfrom as [ids ->]; auto.
  - intros p posts Hp Hdense Hrun.
    pose proof (execute_country_query_dense_rows _ _ _ _ Hp Hdense Hrun)
      as Hfrom.
    split; [exact Hfrom|].
    destruct Hfrom as [->|[ids ->]]; auto.
Qed.

Lemma executors_keep_adapter_order_witness :
  ascending [Samples.mk_post 1 11 "first"; Samples.mk_post 1 12 "second";
             Samples.mk_post 2 21 "third"] = true.
Proof.
  assert (Htable : ascending Samples.posts = true) by reflexivity.
  refine (proj2 (proj1 (executors_keep_adapter_order Samples.forum Samples.query
                          _ _) _ _)).
  - intros ids. apply ascending_filter, Htable.
  - intros ids. apply ascending_filter, Htable.
  - vm_compute. reflexivity.
Defined.

(** C3 as stated fails: the full-text executor hands back the adapter's rows
    as they come, here with thread 2 before thread 1. *)
Lemma core_does_not_sort :
  exists posts,
    result (execute_string_query Unsorted.forum Samples.query) = Return (Some posts) /\
    ascending posts = false.
Proof. eexists. split; vm_compute; reflexivity. Qed.

(** ** Mode selection *)

(** C5 (as the code has it). [work] runs exactly one executor, the one of
    [mode_by_truth]: random sampling when a non-zero count is present,
    otherwise the country executor when a flag other than ["all"] is
    present, otherwise the full-text executor. Unless the count is present
    and zero this is the mode of the specification. *)
Theorem execute_runs_one_mode (B : backend) (q : QuerySpec) :
  execute B q = run_mode B (mode_by_truth q) q /\
  (random_amount q <> Some 0 -> mode_by_truth q = mode_by_presence q).
Proof.
  unfold execute, mode_by_truth, mode_by_presence, country_selected.
  destruct (random_amount q) as [n|].
  - destruct (Z.eqb_spec n 0) as [->|Hn].
    + rewrite bool_decide_eq_false_2 by (intros [_ H]; now apply H).
      split; [|congruence]. simpl. destruct (country_flag q) as [c|]; [|reflexivity].
      destruct (String.eqb c "all"); reflexivity.
    + rewrite bool_decide_eq_true_2 by (split; [eauto|congruence]).
      rewrite bool_decide_eq_true_2 by eauto. split; reflexivity.
  - rewrite bool_decide_eq_false_2 by (intros [[? H] _]; discriminate).
    rewrite bool_decide_eq_false_2 by (intros [? H]; discriminate).
    split; [|reflexivity]. simpl. destruct (country_flag q) as [c|]; [|reflexivity].
    destruct (String.eqb c "all"); reflexivity.
Qed.

Lemma execute_runs_one_mode_witness :
  mode_by_truth RandomSamples.five = mode_by_presence RandomSamples.five.
Proof.
  apply (proj2 (execute_runs_one_mode Samples.forum RandomSamples.five)).
  discriminate.
Defined.

(** C5 as stated fails: with a count that is present and zero the job runs
    the full-text executor, not the random-sample executor. *)
Lemma present_zero_count_runs_full_text :
  mode_by_presence RandomSamples.zero = RandomSample /\
  execute Samples.forum RandomSamples.zero
    = execute_string_query Samples.forum RandomSamples.zero /\
  execute Samples.forum RandomSamples.zero
    <> run_mode Samples.forum (mode_by_presence RandomSamples.zero) RandomSamples.zero.
Proof.
  split; [reflexivity|]. split; [reflexivity|].
  vm_compute. discriminate.
Qed.

(** C8. A [random_amount] of [0] selects as if the key were absent: the job
    runs the country executor when a flag other than ["all"] is present and
    the full-text executor otherwise, exactly as without the key. *)
Theorem zero_random_amount_is_absent (B : backend) (q : QuerySpec) :
  random_amount q = Some 0 ->
  mode_by_truth q <> RandomSample /\
  execute B q = run_mode B (if country_selected q then AttributeFilter else FullText) q /\
  execute B q = execute B (without_random_amount q).
Proof.
  intros Hzero. destruct q as [mn mx bd bq sq ft dt dp dl ra cf dcp].
  simpl in Hzero. subst ra.
  unfold mode_by_truth, country_selected, execute. simpl.
  split; [destruct cf as [c|]; [destruct (String.eqb c "all")|]; discriminate|].
  split; (destruct cf as [c|]; [destruct (String.eqb c "all")|]); reflexivity.
Qed.

Lemma zero_random_amount_is_absent_witness :
  execute Samples.forum RandomSamples.zero
  = execute Samples.forum (without_random_amount RandomSamples.zero).
Proof.
  apply (zero_random_amount_is_absent Samples.forum RandomSamples.zero).
  reflexivity.
Defined.

(** ** The three outcomes of [work] *)

Section Outcomes.

Variable B : backend.
Variable ds : DataSet.

(** C1 (as the code has it). On an empty list from the executor [work]
    sets the status to "no results found" and on [None] it sets none; in
    both cases it finishes the query with 0 rows and then the job, and in
    neither is the result file written. *)
Theorem work_empty_or_absent_result :
  is_finished ds = false ->
  (result (execute B (get_parameters ds)) = Return (Some []) ->
   work B (Some ds) =
     (started ++ events (execute B (get_parameters ds)) ++
      [UpdateStatus "Query finished, no results found."; QueryFinish 0; JobFinish],
      Return tt)) /\
  (result (execute B (get_parameters ds)) = Return None ->
   work B (Some ds) =
     (started ++ events (execute B (get_parameters ds)) ++ [QueryFinish 0; JobFinish], Return tt)) /\
  (forall posts file,
     (result (execute B (get_parameters ds)) = Return (Some []) \/ result (execute B (get_parameters ds)) = Return None) ->
     PostsToCsv posts file ∉ events (work B (Some ds))).
Proof.
  intros Hopen.
  assert (Hempty : result (execute B (get_parameters ds)) = Return (Some []) ->
    work B (Some ds) =
      (started ++ events (execute B (get_parameters ds)) ++
       [UpdateStatus "Query finished, no results found."; QueryFinish 0; JobFinish],
       Return tt)).
  { unfold work, started. rewrite Hopen.
    generalize (execute B (get_parameters ds)). intros [evs res] Hres.
    simpl in Hres. subst res. reflexivity. }
  assert (Hnone : result (execute B (get_parameters ds)) = Return None ->
    work B (Some ds) =
      (started ++ events (execute B (get_parameters ds)) ++ [QueryFinish 0; JobFinish], Return tt)).
  { unfold work, started. rewrite Hopen.
    generalize (execute B (get_parameters ds)). intros [evs res] Hres.
    simpl in Hres. subst res. reflexivity. }
  split; [exact Hempty|]. split; [exact Hnone|].
  intros posts file Hres Hin.
  pose proof (quiet_not_written (execute B (get_parameters ds)) posts file (quiet_execute B _)) as Hquiet.
  destruct Hres as [Hres|Hres];
    [rewrite (Hempty Hres) in Hin | rewrite (Hnone Hres) in Hin];
    unfold started, events at 1 in Hin; cbn [fst] in Hin;
    rewrite !elem_of_app in Hin;
    destruct Hin as [Hin|[Hin|Hin]]; try (exact (Hquiet Hin));
    repeat (apply elem_of_cons in Hin as [Hin|Hin]; [discriminate|]);
    now apply elem_of_nil in Hin.
Qed.

End Outcomes.

Lemma work_empty_or_absent_result_witness :
  events (work EmptySample.forum (Some EmptySample.dataset)) =
    [UpdateVersion; SphinxConnect; LogInfo "%s"] ++
    events (execute EmptySample.forum Samples.query) ++
    [UpdateStatus "Query finished, no results found."; QueryFinish 0; JobFinish] /\
  events (work EmptySample.timed_out (Some EmptySample.dataset)) =
    [UpdateVersion; SphinxConnect; LogInfo "%s"] ++
    events (execute EmptySample.timed_out Samples.query) ++
    [QueryFinish 0; JobFinish].
Proof.
  split.
  - rewrite (proj1 (work_empty_or_absent_result EmptySample.forum
                      EmptySample.dataset eq_refl)); [reflexivity|].
    vm_compute. reflexivity.
  - rewrite (proj1 (proj2 (work_empty_or_absent_result EmptySample.timed_out
                      EmptySample.dataset eq_refl))); [reflexivity|].
    vm_compute. reflexivity.
Defined.

(** C1 as stated fails: the executor returns an empty list, and [work]
    finishes the query with 0 rows without writing any result file. *)
Lemma empty_result_is_not_written :
  result (execute EmptySample.forum (get_parameters EmptySample.dataset))
    = Return (Some []) /\
  ~ (exists posts file,
       PostsToCsv posts file ∈ events (work EmptySample.forum (Some EmptySample.dataset))).
Proof.
  split; [vm_compute; reflexivity|].
  intros (posts & file & Hin).
  apply list_elem_of_In in Hin. vm_compute in Hin.
  repeat (destruct Hin as [Hin|Hin]; [discriminate|]). exact Hin.
Qed.

(** * Further properties *)

(** ** Events of a computation *)


Lemma result_emit_then {A} (e : event) (k : M A) :
  result (emit e ;; k) = result k.
Proof. reflexivity. Qed.

Lemma occurrences_app P evs evs' :
  occurrences P (evs ++ evs') = (occurrences P evs + occurrences P evs')%nat.
Proof. induction evs as [|e evs IH]; simpl; [reflexivity|]. rewrite IH. lia. Qed.

Lemma occurrences_none P evs :
  existsb P evs = false -> occurrences P evs = 0%nat.
Proof.
  induction evs as [|e evs IH]; simpl; [reflexivity|].
  destruct (P e); simpl; [discriminate|]. exact IH.
Qed.

Lemma never_occurrences P {A} (m : M A) :
  never P m -> occurrences P (events m) = 0%nat.
Proof. apply occurrences_none. Qed.

Lemma never_weaken (P Q : event -> bool) {A} (m : M A) :
  (forall e, Q e = true -> P e = true) -> never P m -> never Q m.
Proof.
  unfold never. intros HQP. induction (events m) as [|e evs IH]; simpl; [reflexivity|].
  intros H. apply orb_false_iff in H as [He Hevs].
  rewrite (IH Hevs), orb_false_r.
  destruct (Q e) eqn:HQ; [|reflexivity]. rewrite (HQP e HQ) in He. discriminate.
Qed.

Lemma never_ret P {A} (a : A) : never P (mret a).
Proof. reflexivity. Qed.

Lemma never_raise P {A} (e : exn) : never P (@raise A e).
Proof. reflexivity. Qed.

Lemma never_lift P {A} (r : outcome A) : never P (lift r).
Proof. reflexivity. Qed.

Lemma never_emit P (e : event) : P e = false -> never P (emit e).
Proof. unfold never. simpl. now intros ->. Qed.

Lemma never_bind P {A C} (m : M A) (f : A -> M C) :
  never P m -> (forall a, never P (f a)) -> never P (m ≫= f).
Proof.
  unfold never. intros Hm Hf. unfold mbind, M_bind.
  destruct (result m) as [a|e]; unfold events at 1; simpl; [|exact Hm].
  rewrite existsb_app, Hm. apply Hf.
Qed.

Create HintDb never.
#[export] Hint Resolve never_ret never_raise never_lift : never.
#[export] Hint Extern 1 (never _ (emit _)) => apply never_emit; reflexivity : never.
#[export] Hint Extern 2 (never _ (_ ≫= _)) => apply never_bind; [|intros ?] : never.
#[export] Hint Extern 3 (never _ (if ?b then _ else _)) => destruct b : never.

Section NeverFacts.

Variable B : backend.
Variable P : event -> bool.

Lemma never_lookup_key {A} k (field : option A) : never P (lookup_key k field).
Proof. destruct field; simpl; auto with never. Qed.

Hypothesis no_db : forall sql args, P (DbFetchall sql args) = false.
Hypothesis no_log : forall fmt, P (LogInfo fmt) = false.

Lemma never_fetchall {A} (rows : string -> list sqlarg -> list A) sql args :
  never P (fetchall rows sql args).
Proof.
  unfold fetchall. apply never_bind; [|auto with never].
  apply never_emit, no_db.
Qed.

Lemma never_filter_dense ids keyword p len :
  never P (filter_dense B ids keyword p len).
Proof.
  unfold filter_dense. cbv zeta.
  repeat first [ apply never_fetchall
               | apply never_emit, no_log
               | apply never_lift | apply never_ret
               | apply never_bind; [|intros ?] ].
Qed.

Lemma never_filter_dense_country ids country p :
  never P (filter_dense_country B ids country p).
Proof.
  unfold filter_dense_country. cbv zeta.
  repeat first [ apply never_fetchall
               | apply never_emit, no_log
               | apply never_lift | apply never_ret
               | apply never_bind; [|intros ?] ].
Qed.

End NeverFacts.

Ltac never_step :=
  lazymatch goal with
  | |- never _ (mret _) => apply never_ret
  | |- never _ (raise _) => apply never_raise
  | |- never _ (lift _) => apply never_lift
  | |- never _ (lookup_key _ _) => apply never_lookup_key
  | |- never _ (fetchall _ _ _) => apply never_fetchall; intros; reflexivity
  | |- never _ (filter_dense _ _ _ _ _) => apply never_filter_dense; intros; reflexivity
  | |- never _ (filter_dense_country _ _ _ _) =>
      apply never_filter_dense_country; intros; reflexivity
  | |- never _ (call_fetch_posts _ _) => unfold call_fetch_posts
  | |- never _ (call_fetch_threads _ _) => unfold call_fetch_threads
  | |- never _ (emit _) => apply never_emit; reflexivity
  | |- never _ (if ?b then _ else _) => destruct b
  | |- never _ (match ?x with _ => _ end) => destruct x
  | |- never _ (_ ≫= _) => apply never_bind; [|intros ?]
  end.

Ltac never_tac := cbv beta zeta; repeat (never_step; cbv beta zeta).

(** ** What [work] does around the executor *)

Section WorkFacts.

Variable B : backend.

Lemma never_of_work_string q : never of_work (execute_string_query B q).
Proof. unfold execute_string_query. never_tac. Qed.

Lemma never_of_work_random q : never of_work (execute_random_query B q).
Proof. unfold execute_random_query. never_tac. Qed.

Lemma never_of_work_country q : never of_work (execute_country_query B q).
Proof. unfold execute_country_query. never_tac. Qed.

Lemma never_of_work_execute q : never of_work (execute B q).
Proof.
  pose proof (never_of_work_string q). pose proof (never_of_work_random q).
  pose proof (never_of_work_country q).
  unfold execute. repeat case_match; auto with never.
Qed.

(** The events and the result of [work] on an open query, from those of the
    executor it runs. *)
Lemma work_unfold ds :
  is_finished ds = false ->
  let run := execute B (get_parameters ds) in
  events (work B (Some ds)) =
    started ++ events run ++
    match result run with
    | Return posts => events (conclude posts (strip_stars (get_results_path ds)))
    | Raise _ => []
    end /\
  result (work B (Some ds)) =
    match result run with
    | Return _ => Return tt
    | Raise e => Raise e
    end.
Proof.
  intros Hopen. unfold work, started. rewrite Hopen.
  generalize (execute B (get_parameters ds)). intros [evs [posts|e]].
  - cbn [events result fst snd]. split.
    + reflexivity.
    + destruct posts as [[|]|]; reflexivity.
  - split; cbn; [now rewrite app_nil_r | reflexivity].
Qed.

Lemma conclude_events posts file :
  exists status,
    events (conclude posts file) =
      status ++
      [QueryFinish (if truthy_posts posts then Z.of_nat (length (default [] posts)) else 0);
       JobFinish] /\
    occurrences is_job_finish status = 0%nat /\
    occurrences is_query_finish status = 0%nat.
Proof.
  destruct posts as [[|p posts]|]; eexists; (split; [reflexivity|split; reflexivity]).
Qed.

(** X1. A run of [work] that returns has finished the job exactly once, as
    its last call, and the query at most once; a run that ends in an
    exception of the executor has finished neither the job nor the query. *)
Theorem work_finishes_the_job_once (dataset : option DataSet) :
  match result (work B dataset) with
  | Return _ =>
      exists evs, events (work B dataset) = evs ++ [JobFinish] /\
                  occurrences is_job_finish evs = 0%nat /\
                  (occurrences is_query_finish evs <= 1)%nat
  | Raise _ =>
      occurrences is_job_finish (events (work B dataset)) = 0%nat /\
      occurrences is_query_finish (events (work B dataset)) = 0%nat
  end.
Proof.
  destruct dataset as [ds|]; [destruct (is_finished ds) eqn:Hopen|].
  - unfold work. rewrite Hopen. cbn. eexists [_]. repeat split; cbn; lia.
  - destruct (work_unfold ds Hopen) as [-> ->].
    pose proof (never_of_work_execute (get_parameters ds)) as Hrun.
    assert (Hjob : occurrences is_job_finish (events (execute B (get_parameters ds))) = 0%nat).
    { apply never_occurrences. revert Hrun. apply never_weaken. now intros []. }
    assert (Hquery : occurrences is_query_finish (events (execute B (get_parameters ds))) = 0%nat).
    { apply never_occurrences. revert Hrun. apply never_weaken. now intros []. }
    destruct (result (execute B (get_parameters ds))) as [posts|e].
    + destruct (conclude_events posts (strip_stars (get_results_path ds)))
        as (status & -> & Hs1 & Hs2).
      exists (started ++ events (execute B (get_parameters ds)) ++ status ++
              [QueryFinish (if truthy_posts posts
                            then Z.of_nat (length (default [] posts)) else 0)]).
      split; [rewrite <- !app_assoc; reflexivity|].
      rewrite !occurrences_app, Hjob, Hquery, Hs1, Hs2. cbn. lia.
    + rewrite app_nil_r, !occurrences_app, Hjob, Hquery. cbn. lia.
  - cbn. eexists [_]. repeat split; cbn; lia.
Qed.

(** X2. A non-empty result is written once, as the executor returned it, to
    the results path without its asterisks, and the query is finished with
    the number of rows written. *)
Theorem work_writes_what_it_counts (ds : DataSet) (posts : list post) :
  is_finished ds = false ->
  result (execute B (get_parameters ds)) = Return (Some posts) ->
  posts <> [] ->
  work B (Some ds) =
    (started ++ events (execute B (get_parameters ds)) ++
     [UpdateStatus "Writing posts to result file";
      PostsToCsv posts (strip_stars (get_results_path ds));
      UpdateStatus "Query finished, results are available.";
      QueryFinish (Z.of_nat (length posts));
      JobFinish],
     Return tt).
Proof.
  intros Hopen Hrun Hposts.
  destruct (work_unfold ds Hopen) as [Hev Hres].
  rewrite Hrun in Hev, Hres.
  destruct posts as [|p posts]; [congruence|].
  rewrite (surjective_pairing (work B (Some ds))).
  unfold events, result in *. now rewrite Hev, Hres.
Qed.

End WorkFacts.

Lemma work_writes_what_it_counts_witness :
  work Samples.forum (Some EmptySample.dataset) =
    (started ++ events (execute Samples.forum Samples.query) ++
     [UpdateStatus "Writing posts to result file";
      PostsToCsv [Samples.mk_post 1 11 "first"; Samples.mk_post 1 12 "second";
                  Samples.mk_post 2 21 "third"] "/data/4chan-search-1-.csv";
      UpdateStatus "Query finished, results are available.";
      QueryFinish 3;
      JobFinish],
     Return tt).
Proof.
  refine (work_writes_what_it_counts Samples.forum EmptySample.dataset
            [Samples.mk_post 1 11 "first"; Samples.mk_post 1 12 "second";
             Samples.mk_post 2 21 "third"] eq_refl _ _).
  - vm_compute. reflexivity.
  - discriminate.
Defined.

(** ** The Sphinx connection *)

Section SphinxFacts.

Variable B : backend.





End SphinxFacts.


(** ** Texts: the results path, the WHERE clause, escaping *)

(** X4. The results path loses every asterisk and nothing else: the other
    characters stay in order, and a path without asterisks is unchanged. *)
Theorem strip_stars_spec (path : string) :
  (list_ascii_of_string (strip_stars path) =
     filter (fun c => c <> "*"%char) (list_ascii_of_string path)) /\
  ("*"%char ∉ list_ascii_of_string (strip_stars path)) /\
  ("*"%char ∉ list_ascii_of_string path -> strip_stars path = path).
Proof.
  assert (Hfilter : forall p, list_ascii_of_string (strip_stars p) =
            filter (fun c => c <> "*"%char) (list_ascii_of_string p)).
  { induction p as [|c p IH]; [reflexivity|]. simpl.
    rewrite filter_cons. destruct (Ascii.eqb_spec c "*") as [->|Hc].
    - rewrite decide_False by (intros H; now apply H). exact IH.
    - rewrite decide_True by exact Hc. simpl. now rewrite IH. }
  split; [apply Hfilter|]. split.
  - rewrite Hfilter. intros Hin. apply list_elem_of_filter in Hin as [Hne _].
    now apply Hne.
  - induction path as [|c p IH]; [reflexivity|]. simpl. intros Hnone.
    destruct (Ascii.eqb_spec c "*") as [->|Hc].
    + exfalso. apply Hnone. left.
    + rewrite IH; [reflexivity|]. intros Hin. apply Hnone. now right.
Qed.

Lemma strip_stars_spec_witness :
  strip_stars "/data/4chan-search-1.csv" = "/data/4chan-search-1.csv".
Proof.
  apply (proj2 (proj2 (strip_stars_spec "/data/4chan-search-1.csv"))).
  apply (bool_decide_unpack _). vm_compute. reflexivity.
Defined.

(** X5. The WHERE clause for Sphinx is put together from the four fixed
    conditions, in their order and joined by [AND]: no text of the user is
    part of it. It has as many [%s] placeholders as there are
    replacements. *)
Theorem sphinx_clause_is_parameterised (q : QuerySpec) :
  (exists parts,
     sublist parts where_templates /\
     (Sphinx.build q).1 = Py.join " AND " parts /\
     length parts = length (Sphinx.build q).2) /\
  placeholders (Sphinx.build q).1 = length (Sphinx.build q).2.
Proof.
  unfold Sphinx.build, where_templates.
  destruct (negb (min_date q =? 0)), (negb (max_date q =? 0)),
    (Py.truthy_str (board q) && negb (String.eqb (board q) "*")),
    (Py.truthy_str (body_query q)), (Py.truthy_str (subject_query q));
    cbn -[Py.join placeholders String.append];
    (split; [eexists; split; [|split; reflexivity] | reflexivity]);
    repeat first [apply sublist_nil | apply sublist_skip | apply sublist_cons].
Qed.

(** X6. Escaping loses nothing: reading the backslashes back gives the text
    that was escaped, so two different texts are never escaped to the same
    query text. *)
Theorem escape_for_sphinx_round_trip :
  (forall s, unescape (escape_for_sphinx s) = s) /\
  (forall s t, escape_for_sphinx s = escape_for_sphinx t -> s = t).
Proof.
  assert (Hback : forall s, unescape (escape_for_sphinx s) = s).
  { induction s as [|c s IH]; [reflexivity|]. simpl.
    destruct (is_special c) eqn:Hc.
    - simpl. now rewrite IH.
    - simpl. destruct (Ascii.eqb_spec c "\") as [->|_]; [discriminate Hc|].
      now rewrite IH. }
  split; [exact Hback|].
  intros s t Heq. rewrite <- (Hback s), <- (Hback t). now rewrite Heq.
Qed.

Lemma escape_for_sphinx_round_trip_witness :
  unescape (escape_for_sphinx "a\(b") = "a\(b" /\ "r/pol" = "r/pol".
Proof.
  split.
  - exact (proj1 escape_for_sphinx_round_trip "a\(b").
  - apply (proj2 escape_for_sphinx_round_trip "r/pol" "r/pol"). reflexivity.
Defined.

(** ** More on the dense filters *)

Section CounterFacts.

Lemma count_step (m : gmap Z Z) (x k : Z) :
  Py.count (<[x := default 0 (m !! x) + 1]> m) k =
  Py.count m k + (if decide (x = k) then 1 else 0).
Proof.
  unfold Py.count. rewrite lookup_insert.
  destruct (decide (x = k)) as [->|Hne]; simpl; lia.
Qed.

Lemma count_foldl (l : list Z) (k : Z) :
  forall m : gmap Z Z,
    Py.count (foldl (fun m k => <[k := default 0 (m !! k) + 1]> m) m l) k =
    Py.count m k + matches_in l k.
Proof.
  unfold matches_in. induction l as [|x l IH]; intros m; simpl.
  - lia.
  - rewrite IH, count_step, filter_cons.
    destruct (decide (x = k)); simpl; lia.
Qed.

(** The counter of a list holds, for every key, how often it occurs. *)
Lemma count_Counter (l : list Z) (k : Z) :
  Py.count (Py.Counter l) k = matches_in l k.
Proof. unfold Py.Counter. rewrite count_foldl. reflexivity. Qed.

End CounterFacts.

Section DenseMore.

(** The keyword loop as a filter: when it returns, it has appended the ids of
    the rows that pass the length check and are dense. *)
Lemma dense_loop_filter ids p len rows :
  forall acc out,
    dense_loop (Py.Counter ids) p len rows acc = Return out ->
    out = acc ++ (t_id <$> filter (fun row => len <= num_replies row /\
                                             is_dense ids p row = true) rows).
Proof.
  induction rows as [|row rows IH]; intros acc out; simpl.
  - intros [= <-]. now rewrite app_nil_r.
  - rewrite filter_cons.
    assert (Hdense : is_dense ids p row =
              match thread_density (Py.count (Py.Counter ids) (t_id row))
                      (num_replies row), Py.to_float p with
              | Return d, Return t => Py.ge d t
              | _, _ => false
              end) by (unfold is_dense; now rewrite count_Counter).
    destruct (Z.geb_spec (num_replies row) len) as [Hlen|Hlen].
    + destruct (thread_density _ _) as [d|e]; simpl; [|discriminate].
      destruct (Py.to_float p) as [t|e]; simpl; [|discriminate].
      destruct (Py.ge d t).
      * rewrite decide_True by (split; [lia|exact Hdense]).
        intros H. apply IH in H as ->. simpl. now rewrite <- app_assoc.
      * rewrite decide_False by (intros [_ H]; congruence).
        apply IH.
    + rewrite decide_False by (intros [H _]; lia). apply IH.
Qed.

Lemma dense_country_loop_filter ids p rows :
  forall acc out,
    dense_country_loop (Py.Counter ids) p rows acc = Return out ->
    out = acc ++ (t_id <$> filter (fun row => is_dense ids p row = true) rows).
Proof.
  induction rows as [|row rows IH]; intros acc out; simpl.
  - intros [= <-]. now rewrite app_nil_r.
  - rewrite filter_cons.
    assert (Hdense : is_dense ids p row =
              match thread_density (Py.count (Py.Counter ids) (t_id row))
                      (num_replies row), Py.to_float p with
              | Return d, Return t => Py.ge d t
              | _, _ => false
              end) by (unfold is_dense; now rewrite count_Counter).
    destruct (thread_density _ _) as [d|e]; simpl; [|discriminate].
    destruct (Py.to_float p) as [t|e]; simpl; [|discriminate].
    destruct (Py.ge d t).
    + rewrite decide_True by exact Hdense.
      intros H. apply IH in H as ->. simpl. now rewrite <- app_assoc.
    + rewrite decide_False by congruence. apply IH.
Qed.

Variable B : backend.


End DenseMore.


Section DenseOrder.

Lemma matches_in_Permutation (l l' : list Z) (k : Z) :
  l ≡ₚ l' -> matches_in l k = matches_in l' k.
Proof. unfold matches_in. intros H. now rewrite H. Qed.

(** The loops read the counter only through the counts. *)
Lemma dense_loop_counts c c' p len rows :
  (forall k, Py.count c k = Py.count c' k) ->
  forall acc, dense_loop c p len rows acc = dense_loop c' p len rows acc.
Proof.
  intros Hc. induction rows as [|row rows IH]; intros acc; simpl; [reflexivity|].
  rewrite Hc. destruct (num_replies row >=? len); [|apply IH].
  destruct (thread_density _ _) as [d|e]; simpl; [|reflexivity].
  destruct (Py.to_float p) as [t|e]; simpl; [|reflexivity].
  destruct (Py.ge d t); apply IH.
Qed.

Lemma dense_country_loop_counts c c' p rows :
  (forall k, Py.count c k = Py.count c' k) ->
  forall acc, dense_country_loop c p rows acc = dense_country_loop c' p rows acc.
Proof.
  intros Hc. induction rows as [|row rows IH]; intros acc; simpl; [reflexivity|].
  rewrite Hc.
  destruct (thread_density _ _) as [d|e]; simpl; [|reflexivity].
  destruct (Py.to_float p) as [t|e]; simpl; [|reflexivity].
  destruct (Py.ge d t); apply IH.
Qed.

(** Raising the minimum length only takes threads away. *)
Lemma dense_loop_length_mono c p len len' rows :
  len <= len' ->
  forall acc out acc',
    dense_loop c p len rows acc = Return out -> sublist acc' acc ->
    exists out', dense_loop c p len' rows acc' = Return out' /\ sublist out' out.
Proof.
  intros Hle. induction rows as [|row rows IH]; intros acc out acc'; simpl.
  - intros [= <-] Hsub. eauto.
  - destruct (Z.geb_spec (num_replies row) len) as [Hlen|Hlen].
    + destruct (thread_density _ _) as [d|e]; simpl; [|discriminate].
      destruct (Py.to_float p) as [t|e]; simpl; [|discriminate].
      destruct (Z.geb_spec (num_replies row) len') as [Hlen'|Hlen'].
      * destruct (Py.ge d t); intros Hrun Hsub; eapply IH; eauto.
        now apply sublist_app.
      * destruct (Py.ge d t); intros Hrun Hsub; eapply IH; eauto.
        now apply sublist_inserts_r.
    + destruct (Z.geb_spec (num_replies row) len') as [Hlen'|_]; [lia|]. apply IH.
Qed.

Variable B : backend.

(** X8. The thread ids given to a dense filter count only by how often each
    occurs: in another order, and with the same thread rows fetched, either
    filter ends the same way. *)
Theorem filter_dense_counts_only_multiplicity ids ids' keyword country p len :
  ids ≡ₚ ids' ->
  fetched_threads B ids = fetched_threads B ids' ->
  result (filter_dense B ids keyword p len) =
    result (filter_dense B ids' keyword p len) /\
  result (filter_dense_country B ids country p) =
    result (filter_dense_country B ids' country p).
Proof.
  intros Hperm Hrows.
  assert (Hc : forall k, Py.count (Py.Counter ids) k = Py.count (Py.Counter ids') k).
  { intros k. rewrite !count_Counter. now apply matches_in_Permutation. }
  rewrite !filter_dense_result, !filter_dense_country_result, Hrows.
  split; [now apply dense_loop_counts | now apply dense_country_loop_counts].
Qed.

(** X9. When the keyword filter returns for one minimum length, it returns
    for every greater one too, with a sublist of the threads. *)
Theorem filter_dense_length_monotone ids keyword p len len' out :
  len <= len' ->
  result (filter_dense B ids keyword p len) = Return out ->
  exists out',
    result (filter_dense B ids keyword p len') = Return out' /\ sublist out' out.
Proof.
  intros Hle. rewrite !filter_dense_result. intros Hrun.
  eapply dense_loop_length_mono; eauto.
Qed.

End DenseOrder.

Lemma filter_dense_counts_only_multiplicity_witness :
  result (filter_dense Samples.forum [1; 2; 1; 2; 2] "kw" (NInt 50) 0) =
  result (filter_dense Samples.forum [2; 2; 2; 1; 1] "kw" (NInt 50) 0).
Proof.
  apply (filter_dense_counts_only_multiplicity Samples.forum
           [1; 2; 1; 2; 2] [2; 2; 2; 1; 1] "kw" (AStr "NL") (NInt 50) 0).
  - apply (bool_decide_unpack _). vm_compute. reflexivity.
  - vm_compute. reflexivity.
Defined.

Lemma filter_dense_length_monotone_witness :
  exists out',
    result (filter_dense Samples.forum [1; 1; 1; 1; 2; 2; 2; 2] "kw" (NInt 50) 6)
      = Return out' /\ sublist out' [2].
Proof.
  apply (filter_dense_length_monotone Samples.forum _ "kw" (NInt 50) 0 6 [2]).
  - lia.
  - vm_compute. reflexivity.
Defined.

Section DenseFailures.

Lemma truediv_raises a b e :
  Py.truediv a b = Raise e ->
  (e = ZeroDivisionError /\ b = 0) \/ e = OverflowError.
Proof.
  unfold Py.truediv. destruct (Z.eqb_spec b 0) as [->|Hb].
  - intros [= <-]. now left.
  - destruct (SFdiv prec emax (Py.exact a) (Py.exact b)); intros [= <-]. now right.
Qed.

Lemma float_of_int_raises z e : Py.float_of_int z = Raise e -> e = OverflowError.
Proof.
  unfold Py.float_of_int.
  destruct (binary_normalize prec emax z 0 false); now intros [= <-].
Qed.

Lemma to_float_raises p e : Py.to_float p = Raise e -> e = OverflowError.
Proof. destruct p as [z|f]; simpl; [apply float_of_int_raises|discriminate]. Qed.

Lemma thread_density_raises a b e :
  thread_density a b = Raise e ->
  (e = ZeroDivisionError /\ b = 0) \/ e = OverflowError.
Proof.
  unfold thread_density. destruct (Py.truediv a b) as [q|e'] eqn:Hq; simpl.
  - unfold Py.mul_int. destruct (Py.float_of_int 100) as [y|e'] eqn:Hy; simpl.
    + discriminate.
    + intros [= <-]. right. now apply float_of_int_raises in Hy.
  - intros [= <-]. now apply truediv_raises in Hq.
Qed.

(** No match at all is a density of zero, whatever the sign of the reply
    count. *)
Lemma thread_density_no_match b d :
  thread_density 0 b = Return d -> exists s, d = S754_zero s.
Proof.
  unfold thread_density, Py.truediv. destruct b as [|n|n]; simpl.
  - discriminate.
  - vm_compute. intros [= <-]. eauto.
  - vm_compute. intros [= <-]. eauto.
Qed.

Lemma matches_in_absent (l : list Z) (k : Z) : k ∉ l -> matches_in l k = 0.
Proof.
  unfold matches_in. induction l as [|x l IH]; [reflexivity|].
  intros Hout. apply not_elem_of_cons in Hout as [Hne Hout].
  rewrite filter_cons, decide_False by congruence. now apply IH.
Qed.

Lemma zero_below_positive s f :
  SFltb (S754_zero false) f = true -> Py.ge (S754_zero s) f = false.
Proof. destruct f as [| [] | | [] ? ?]; simpl; try discriminate; reflexivity. Qed.

Lemma dense_loop_raises c p len rows :
  forall acc e,
    dense_loop c p len rows acc = Raise e ->
    arithmetic e /\
    (e = ZeroDivisionError ->
     exists row, row ∈ rows /\ num_replies row = 0 /\ len <= 0).
Proof.
  induction rows as [|row rows IH]; intros acc e; simpl; [discriminate|].
  assert (Hrest : forall acc', dense_loop c p len rows acc' = Raise e ->
            arithmetic e /\
            (e = ZeroDivisionError ->
             exists r, r ∈ row :: rows /\ num_replies r = 0 /\ len <= 0)).
  { intros acc' H. apply IH in H as [Ha Hz]. split; [exact Ha|].
    intros He. destruct (Hz He) as (r & Hr & H0). exists r. split; [now right|exact H0]. }
  destruct (Z.geb_spec (num_replies row) len) as [Hlen|Hlen]; [|apply Hrest].
  destruct (thread_density _ _) as [d|e'] eqn:Hd; simpl.
  - destruct (Py.to_float p) as [t|e'] eqn:Ht; simpl.
    + destruct (Py.ge d t); apply Hrest.
    + intros [= <-]. apply to_float_raises in Ht as ->.
      split; [now right|discriminate].
  - intros [= <-]. apply thread_density_raises in Hd as [[-> Hzero] | ->].
    + split; [now left|]. intros _. exists row. split; [left|]. split; [exact Hzero|lia].
    + split; [now right|discriminate].
Qed.

Lemma dense_country_loop_raises c p rows :
  forall acc e,
    dense_country_loop c p rows acc = Raise e ->
    arithmetic e /\
    (e = ZeroDivisionError -> exists row, row ∈ rows /\ num_replies row = 0).
Proof.
  induction rows as [|row rows IH]; intros acc e; simpl; [discriminate|].
  assert (Hrest : forall acc', dense_country_loop c p rows acc' = Raise e ->
            arithmetic e /\
            (e = ZeroDivisionError ->
             exists r, r ∈ row :: rows /\ num_replies r = 0)).
  { intros acc' H. apply IH in H as [Ha Hz]. split; [exact Ha|].
    intros He. destruct (Hz He) as (r & Hr & H0). exists r. split; [now right|exact H0]. }
  destruct (thread_density _ _) as [d|e'] eqn:Hd; simpl.
  - destruct (Py.to_float p) as [t|e'] eqn:Ht; simpl.
    + destruct (Py.ge d t); apply Hrest.
    + intros [= <-]. apply to_float_raises in Ht as ->.
      split; [now right|discriminate].
  - intros [= <-]. apply thread_density_raises in Hd as [[-> Hzero] | ->].
    + split; [now left|]. intros _. exists row. split; [left|exact Hzero].
    + split; [now right|discriminate].
Qed.

(** A row without replies that the length check lets through is never
    passed: the loop raises there, if not before. *)
Lemma dense_loop_stops_at_zero c p len rows row :
  row ∈ rows -> num_replies row = 0 -> len <= 0 ->
  forall acc, exists e, dense_loop c p len rows acc = Raise e.
Proof.
  intros Hin Hzero Hlen. induction rows as [|r rows IH]; [now apply elem_of_nil in Hin|].
  intros acc. apply elem_of_cons in Hin as [<-|Hin].
  - exists ZeroDivisionError. now apply dense_loop_zero_replies.
  - simpl. destruct (num_replies r >=? len); [|now apply IH].
    destruct (thread_density _ _) as [d|e]; simpl; [|eauto].
    destruct (Py.to_float p) as [t|e]; simpl; [|eauto].
    destruct (Py.ge d t); now apply IH.
Qed.

Lemma dense_country_loop_stops_at_zero c p rows row :
  row ∈ rows -> num_replies row = 0 ->
  forall acc, exists e, dense_country_loop c p rows acc = Raise e.
Proof.
  intros Hin Hzero. induction rows as [|r rows IH]; [now apply elem_of_nil in Hin|].
  intros acc. apply elem_of_cons in Hin as [<-|Hin].
  - exists ZeroDivisionError. now apply dense_country_loop_zero_replies.
  - simpl.
    destruct (thread_density _ _) as [d|e]; simpl; [|eauto].
    destruct (Py.to_float p) as [t|e]; simpl; [|eauto].
    destruct (Py.ge d t); now apply IH.
Qed.

Variable B : backend.

(** X10. A dense filter raises nothing but [ZeroDivisionError] and
    [OverflowError], and [ZeroDivisionError] only when a fetched thread row
    has no replies (and, in the keyword filter, the minimum length is not
    above zero). With such a row fetched the filter never returns. *)
Theorem filter_dense_failures thread_ids keyword country p len :
  (forall e,
     result (filter_dense B thread_ids keyword p len) = Raise e ->
     arithmetic e /\
     (e = ZeroDivisionError ->
      exists row, row ∈ fetched_threads B thread_ids /\
                  num_replies row = 0 /\ len <= 0)) /\
  (forall e,
     result (filter_dense_country B thread_ids country p) = Raise e ->
     arithmetic e /\
     (e = ZeroDivisionError ->
      exists row, row ∈ fetched_threads B thread_ids /\ num_replies row = 0)) /\
  (forall row,
     row ∈ fetched_threads B thread_ids -> num_replies row = 0 ->
     (len <= 0 ->
      exists e, result (filter_dense B thread_ids keyword p len) = Raise e) /\
     (exists e, result (filter_dense_country B thread_ids country p) = Raise e)).
Proof.
  rewrite filter_dense_result, filter_dense_country_result.
  split; [|split].
  - intros e. apply dense_loop_raises.
  - intros e. apply dense_country_loop_raises.
  - intros row Hin Hzero. split.
    + intros Hlen. now apply (dense_loop_stops_at_zero _ _ _ _ row).
    + now apply (dense_country_loop_stops_at_zero _ _ _ row).
Qed.

(** X11. With a threshold above zero a dense filter returns only threads
    that occur in [thread_ids]: a fetched thread without a match is never
    dense. *)
Theorem filter_dense_returns_matched_threads thread_ids keyword country p len :
  positive p ->
  (forall out,
     result (filter_dense B thread_ids keyword p len) = Return out ->
     out ⊆ thread_ids) /\
  (forall out,
     result (filter_dense_country B thread_ids country p) = Return out ->
     out ⊆ thread_ids).
Proof.
  intros (f & Hf & Hpos).
  assert (Hdense : forall row, is_dense thread_ids p row = true ->
                               t_id row ∈ thread_ids).
  { intros row. unfold is_dense. rewrite Hf.
    destruct (decide (t_id row ∈ thread_ids)) as [Hin|Hout]; [intros _; exact Hin|].
    assert (Hnone : matches_in thread_ids (t_id row) = 0).
    { now apply matches_in_absent. }
    rewrite Hnone. destruct (thread_density 0 (num_replies row)) as [d|e] eqn:Hd;
      [|discriminate].
    apply thread_density_no_match in Hd as [s ->].
    now rewrite (zero_below_positive s f Hpos). }
  split; intros out Hrun t Ht.
  - rewrite filter_dense_result in Hrun. apply dense_loop_filter in Hrun as ->.
    apply list_elem_of_fmap in Ht as (row & -> & Hrow).
    apply list_elem_of_filter in Hrow as [[_ Hd] _]. now apply Hdense.
  - rewrite filter_dense_country_result in Hrun.
    apply dense_country_loop_filter in Hrun as ->.
    apply list_elem_of_fmap in Ht as (row & -> & Hrow).
    apply list_elem_of_filter in Hrow as [Hd _]. now apply Hdense.
Qed.

End DenseFailures.

Lemma filter_dense_failures_witness :
  exists e, result (filter_dense Samples.forum [7] "kw" (NInt 50) 0) = Raise e.
Proof.
  refine (proj1 (proj2 (proj2 (filter_dense_failures Samples.forum [7] "kw"
                                 (AStr "NL") (NInt 50) 0))
                   (Samples.mk_thread 7 0) _ eq_refl) _).
  - vm_compute. constructor.
  - lia.
Defined.

Lemma filter_dense_returns_matched_threads_witness :
  [2] ⊆ [1; 1; 2; 2; 2].
Proof.
  refine (proj1 (filter_dense_returns_matched_threads Samples.forum [1; 1; 2; 2; 2]
                   "kw" (AStr "NL") (NInt 50) 0 _) [2] _).
  - eexists. split; vm_compute; reflexivity.
  - vm_compute. reflexivity.
Defined.

(** ** How the executors end *)

Section Throws.

Context {A C : Type}.
Variable S : exn -> Prop.







End Throws.

Section ExecutorEnds.

Variable B : backend.





End ExecutorEnds.



Section ExecuteEnds.

Variable B : backend.
Variable q : QuerySpec.






End ExecuteEnds.


(** X13. The full-text executor returns [None] only for a failed or an
    empty index query: once the index has answered with rows, the result is
    a list (or an exception of the dense filter). *)
Theorem full_text_None_iff (B : backend) (q : QuerySpec) :
  result (execute_string_query B q) = Return None <->
  phase1 B q = OperationalError \/ phase1 B q = ProgrammingError \/
  phase1 B q = Matches [].
Proof.
  unfold phase1, execute_string_query. destruct (Sphinx.build q) as [w r].
  cbn [fst snd].
  destruct (fetch_sphinx B w r) as [[|row rows]| |].
  - cbn. split; auto.
  - split; [|intros [H|[H|H]]; discriminate].
    cbn [Py.truthy_list negb].
    destruct (negb (full_thread q) && negb (dense_threads q)).
    + cbn -[pretty String.append]. discriminate.
    + destruct (dense_threads q && Py.truthy_str (body_query q)).
      * generalize (filter_dense B (m_thread_id <$> row :: rows) (body_query q)
                      (dense_percentage q) (dense_length q)).
        intros [evs [[|t out]|e]]; cbn -[pretty String.append]; discriminate.
      * cbn -[pretty String.append]. discriminate.
  - cbn. split; auto.
  - cbn. split; auto.
Qed.

Lemma full_text_None_iff_witness :
  phase1 EmptySample.timed_out Samples.query = OperationalError \/
  phase1 EmptySample.timed_out Samples.query = ProgrammingError \/
  phase1 EmptySample.timed_out Samples.query = Matches [].
Proof.
  apply (proj1 (full_text_None_iff EmptySample.timed_out Samples.query)).
  vm_compute. reflexivity.
Defined.

Section CountryFacts.

Variable B : backend.

(** A run of the country filter, event by event. *)
Lemma filter_dense_country_run ids country p :
  filter_dense_country B ids country p =
  match dense_country_loop (Py.Counter ids) p (fetched_threads B ids) [] with
  | Return out =>
      ([LogInfo "Filtering %s-dense threads from %i threads...";
        DbFetchall (threads_sql B) [ATuple (Py.str <$> ids)];
        LogInfo "Dense thread filtering finished, %i threads left."], Return out)
  | Raise e =>
      ([LogInfo "Filtering %s-dense threads from %i threads...";
        DbFetchall (threads_sql B) [ATuple (Py.str <$> ids)]], Raise e)
  end.
Proof.
  unfold filter_dense_country, fetched_threads. cbn.
  destruct (dense_country_loop _ _ _ _); reflexivity.
Qed.

(** X14. The country executor asks the post store at most three times, in
    this order: the post query; with density filtering and at least one
    post, the thread query of the filter; and, for a non-empty set of dense
    threads, [fetch_threads]. It never calls [fetch_posts]. After the post
    query alone it returns the rows of that query, after the thread query
    alone the empty list (or the filter has raised), and after
    [fetch_threads] the posts fetched. *)
Theorem country_query_round_trips (q : QuerySpec) :
  let run := execute_country_query B q in
  let asked := store_accesses (events run) in
  (asked = [] /\ exists k, result run = Raise (KeyError k)) \/
  (exists sql args,
     asked = [DbFetchall sql args] /\
     result run = Return (db_posts B sql args)) \/
  (exists sql args ids,
     asked = [DbFetchall sql args;
              DbFetchall (threads_sql B) [ATuple (Py.str <$> ids)]] /\
     db_posts B sql args <> [] /\
     ids = thread_id <$> db_posts B sql args /\
     (result run = Return [] \/ exists e, result run = Raise e /\ arithmetic e)) \/
  (exists sql args ids dense,
     asked = [DbFetchall sql args;
              DbFetchall (threads_sql B) [ATuple (Py.str <$> ids)];
              FetchThreads dense] /\
     dense <> [] /\
     result run = Return (fetch_threads B dense)).
Proof.
  cbv zeta. unfold execute_country_query.
  destruct (country_flag q) as [c|]; [|left; cbn; eauto].
  destruct (dense_country_percentage q) as [p|];
    cbn -[pretty String.append Py.join filter_dense_country];
    destruct (String.eqb c "europe"); try (left; cbn; eauto; fail);
    destruct (max_date q >? 0);
    cbn -[pretty String.append Py.join filter_dense_country];
    match goal with
    | |- context [db_posts B ?sql ?args] =>
        destruct (db_posts B sql args) as [|row rows] eqn:Hrows
    end;
    cbn -[pretty String.append Py.join filter_dense_country];
    try (right; left; do 2 eexists; split; [reflexivity|now rewrite Hrows]);
    destruct (Py.truthy_num p);
    cbn -[pretty String.append Py.join filter_dense_country];
    try (right; left; do 2 eexists; split; [reflexivity|now rewrite Hrows]);
    rewrite filter_dense_country_run;
    match goal with
    | |- context [dense_country_loop ?c ?p ?rs ?acc] =>
        destruct (dense_country_loop c p rs acc) as [[|t out]|e] eqn:Hloop
    end;
    cbn -[pretty String.append Py.join].
  all: try (right; right; left; do 2 eexists; exists (thread_id <$> row :: rows);
            split; [reflexivity|];
            rewrite Hrows; split; [discriminate|]; split; [reflexivity|];
            first [ left; reflexivity
                  | right; eexists; split; [reflexivity|];
                    now apply dense_country_loop_raises in Hloop ]).
  all: right; right; right; do 2 eexists; exists (thread_id <$> row :: rows);
       eexists; split; [reflexivity|]; split; [discriminate|reflexivity].
Qed.

End CountryFacts.

(** X18. Without density filtering the country executor returns the rows of
    its own post query in the order the database gave them: over an adapter
    whose [fetch_posts] and [fetch_threads] answer in ascending order, and a
    post table read in another order, what it returns is not ascending. *)
Theorem country_rows_come_as_stored :
  (forall ids, ascending (fetch_posts HeapOrder.forum ids) = true) /\
  (forall ids, ascending (fetch_threads HeapOrder.forum ids) = true) /\
  result (execute_country_query HeapOrder.forum HeapOrder.query) =
    Return [Samples.mk_post 2 21 "third"; Samples.mk_post 1 11 "first";
            Samples.mk_post 1 12 "second"] /\
  ascending [Samples.mk_post 2 21 "third"; Samples.mk_post 1 11 "first";
             Samples.mk_post 1 12 "second"] = false.
Proof.
  assert (Htable : ascending Samples.posts = true) by reflexivity.
  split; [|split; [|split]].
  - intros ids. apply ascending_filter, Htable.
  - intros ids. apply ascending_filter, Htable.
  - vm_compute. reflexivity.
  - reflexivity.
Qed.

(** ** The internal API *)

Module ApiFacts.
Import Api.

Lemma total_comm (m : gmap string Z) :
  forall (j1 j2 : string) (z1 z2 y : Z),
    j1 <> j2 -> m !! j1 = Some z1 -> m !! j2 = Some z2 ->
    z1 + (z2 + y) = z2 + (z1 + y).
Proof. intros. lia. Qed.

Lemma total_empty : total ∅ = 0.
Proof. apply map_fold_empty. Qed.

Lemma total_insert_new (m : gmap string Z) k v :
  m !! k = None -> total (<[k := v]> m) = v + total m.
Proof.
  intros Hk. unfold total.
  rewrite map_fold_insert_L; [reflexivity|apply total_comm|exact Hk].
Qed.

Lemma total_insert_old (m : gmap string Z) k v v' :
  m !! k = Some v -> total (<[k := v']> m) = total m - v + v'.
Proof.
  intros Hk. rewrite <- insert_delete_eq.
  rewrite total_insert_new by apply lookup_delete_eq.
  assert (Hm : total m = v + total (delete k m)).
  { unfold total.
    exact (map_fold_delete_L (fun _ n acc => n + acc) 0 k v m (total_comm m) Hk). }
  lia.
Qed.

Lemma occurs_cons name n names :
  occurs name (n :: names) = (if decide (n = name) then 1 else 0) + occurs name names.
Proof.
  unfold occurs. rewrite filter_cons. destruct (decide (n = name)); simpl; lia.
Qed.

Lemma occurs_absent name names : name ∉ names -> occurs name names = 0.
Proof.
  induction names as [|n names IH]; [reflexivity|].
  intros Hout. apply not_elem_of_cons in Hout as [Hne Hout].
  rewrite occurs_cons, decide_False by congruence. now rewrite IH.
Qed.

Lemma occurs_nonneg name names : 0 <= occurs name names.
Proof. unfold occurs. lia. Qed.

(** The tally never fails, adds one per name to the sum of the counts and,
    for every name, its number of occurrences to its count. *)
Lemma tally_spec names :
  forall counts,
    exists out,
      tally names counts = Return out /\
      total out = total counts + Z.of_nat (length names) /\
      (forall k, out !! k =
                 if decide (k ∈ names)
                 then Some (default 0 (counts !! k) + occurs k names)
                 else counts !! k).
Proof.
  induction names as [|n names IH]; intros counts.
  - exists counts. split; [reflexivity|]. split; [simpl; lia|].
    intros k. rewrite decide_False by apply not_elem_of_nil. reflexivity.
  - cbn [tally]. unfold increment.
    set (counts' := if decide (counts !! n = None) then <[n := 0]> counts else counts).
    assert (Hn : counts' !! n = Some (default 0 (counts !! n))).
    { subst counts'. destruct (decide (counts !! n = None)) as [Hnone|Hsome].
      - rewrite lookup_insert_eq, Hnone. reflexivity.
      - destruct (counts !! n); [reflexivity|congruence]. }
    assert (Hother : forall k, k <> n -> counts' !! k = counts !! k).
    { intros k Hk. subst counts'. destruct (decide (counts !! n = None)); [|reflexivity].
      now rewrite lookup_insert_ne. }
    assert (Htotal : total counts' = total counts).
    { subst counts'. destruct (decide (counts !! n = None)) as [Hnone|]; [|reflexivity].
      rewrite total_insert_new by exact Hnone. lia. }
    rewrite Hn. cbn [mbind outcome_bind].
    destruct (IH (<[n := default 0 (counts !! n) + 1]> counts')) as (out & -> & Hsum & Hlook).
    exists out. split; [reflexivity|]. split.
    + rewrite Hsum, (total_insert_old _ _ _ _ Hn), Htotal. simpl length. lia.
    + intros k. rewrite Hlook, occurs_cons.
      destruct (decide (n = k)) as [->|Hne].
      * rewrite lookup_insert_eq.
        destruct (decide (k ∈ k :: names)) as [_|Hno]; [|exfalso; apply Hno; left].
        destruct (decide (k ∈ names)) as [Hin|Hout]; simpl.
        -- f_equal; lia.
        -- rewrite (occurs_absent _ _ Hout). f_equal; lia.
      * rewrite lookup_insert_ne by exact Hne. rewrite Hother by congruence.
        destruct (decide (k ∈ names)) as [Hin|Hout],
                 (decide (k ∈ n :: names)) as [Hin'|Hout'].
        -- f_equal; lia.
        -- exfalso. apply Hout'. now right.
        -- exfalso. apply elem_of_cons in Hin' as [->|Hin']; [now apply Hne|now apply Hout].
        -- reflexivity.
Qed.

(** The reply with the counts of [names] and their total. *)
Lemma counted_reply names :
  exists counts,
    (counts ← tally names ∅; Return (Counts (with_total counts))) =
      Return (Counts counts) /\
    counts !! "total" = Some (Z.of_nat (length names)) /\
    (forall name, name <> "total" ->
       counts !! name =
       if decide (name ∈ names) then Some (occurs name names) else None).
Proof.
  destruct (tally_spec names ∅) as (out & -> & Hsum & Hlook).
  exists (with_total out). split; [reflexivity|]. unfold with_total. split.
  - rewrite lookup_insert_eq, Hsum, total_empty. f_equal.
  - intros name Hname. rewrite lookup_insert_ne by congruence.
    rewrite Hlook, lookup_empty. reflexivity.
Qed.

(** X15. The replies to [workers] and [jobs] count every class name and job
    type as often as it occurs, and under [total] hold the number of workers
    and jobs; a worker class or job type that is itself called [total] is
    hidden behind that sum. Neither request fails. *)
Theorem workers_and_jobs_are_counted (E : env) :
  (exists counts,
     process_request E "workers" = Return (Counts counts) /\
     counts !! "total" = Some (Z.of_nat (length (pool E))) /\
     (forall name, name <> "total" ->
        counts !! name =
        if decide (name ∈ pool E) then Some (occurs name (pool E)) else None)) /\
  (forall jobs,
     fetch_jobs E "SELECT * FROM jobs" = Some jobs ->
     exists counts,
       process_request E "jobs" = Return (Counts counts) /\
       counts !! "total" = Some (Z.of_nat (length jobs)) /\
       (forall name, name <> "total" ->
          counts !! name =
          if decide (name ∈ jobs) then Some (occurs name jobs) else None)).
Proof.
  split.
  - destruct (counted_reply (pool E)) as (counts & Hrun & Hc).
    exists counts. split; [exact Hrun|exact Hc].
  - intros jobs Hjobs. destruct (counted_reply jobs) as (counts & Hrun & Hc).
    exists counts. split; [|exact Hc].
    unfold process_request. cbn [String.eqb Ascii.eqb Bool.eqb orb].
    rewrite Hjobs. exact Hrun.
Qed.


Lemma increment_recent_day m h d :
  increment "1d" (recent m h d) = Return (recent m h (d + 1)).
Proof. unfold increment, recent. rewrite lookup_insert_eq. reflexivity. Qed.

Lemma increment_recent_hour m h d :
  increment "1h" (recent m h d) = Return (recent m (h + 1) d).
Proof.
  unfold increment, recent.
  rewrite lookup_insert_ne by discriminate. rewrite lookup_insert_eq. reflexivity.
Qed.

Lemma increment_recent_minute m h d :
  increment "1m" (recent m h d) = Return (recent (m + 1) h d).
Proof.
  unfold increment, recent.
  rewrite !lookup_insert_ne by discriminate. rewrite lookup_insert_eq. reflexivity.
Qed.

Lemma later_than_cons bound t times :
  later_than bound (t :: times) =
  (if t >? bound then 1 else 0) + later_than bound times.
Proof.
  unfold later_than. rewrite filter_cons.
  destruct (Z.gtb_spec t bound).
  - rewrite decide_True by lia. simpl. lia.
  - rewrite decide_False by lia. lia.
Qed.

Lemma later_than_bounds bound bound' times :
  bound <= bound' ->
  0 <= later_than bound' times <= later_than bound times /\
  later_than bound times <= Z.of_nat (length times).
Proof.
  intros Hb. induction times as [|t times IH]; [unfold later_than; simpl; lia|].
  rewrite !later_than_cons. simpl length.
  destruct (Z.gtb_spec t bound), (Z.gtb_spec t bound'); lia.
Qed.

Lemma count_recent_spec now times :
  forall m h d,
    count_recent now times (recent m h d) =
    Return (recent (m + later_than (now - 60) times)
                   (h + later_than (now - 3600) times)
                   (d + Z.of_nat (length times))).
Proof.
  induction times as [|t times IH]; intros m h d.
  - unfold later_than. simpl. now rewrite !Z.add_0_r.
  - cbn [count_recent]. rewrite increment_recent_day. cbn [mbind outcome_bind].
    rewrite !later_than_cons.
    destruct (t >? now - 60), (t >? now - 3600);
      rewrite ?increment_recent_minute; cbn [mbind outcome_bind];
      rewrite ?increment_recent_hour; cbn [mbind outcome_bind];
      rewrite IH; do 2 f_equal; simpl length; lia.
Qed.

(** X16. For [posts] and [threads], with the database available, the reply
    holds under [1d] the number of items the query of the last day returned,
    and under [1h] and [1m] how many of them are later than an hour and a
    minute ago: the three counts are nested. *)
Theorem recent_items_are_counted (E : env) (request : string) (items : list Z) :
  request = "posts" \/ request = "threads" ->
  fetch_times E (times_sql request) (now E - 86400) = Some items ->
  let minute := later_than (now E - 60) items in
  let hour := later_than (now E - 3600) items in
  let day := Z.of_nat (length items) in
  process_request E request = Return (Counts (recent minute hour day)) /\
  0 <= minute <= hour /\ hour <= day.
Proof.
  intros Hreq Hitems minute hour day. split.
  - unfold process_request.
    replace (String.eqb request "workers") with false
      by (destruct Hreq as [-> | ->]; reflexivity).
    replace (String.eqb request "posts" || String.eqb request "threads") with true
      by (destruct Hreq as [-> | ->]; reflexivity).
    cbv zeta. rewrite Hitems.
    change fresh_response with (recent 0 0 0).
    rewrite count_recent_spec. reflexivity.
  - subst minute hour day.
    destruct (later_than_bounds (now E - 3600) (now E - 60) items) as [? ?]; [lia|].
    lia.
Qed.

Lemma with_total_not_empty counts : with_total counts <> ∅.
Proof.
  unfold with_total. intros H.
  apply (f_equal (fun m : gmap string Z => m !! "total")) in H.
  rewrite lookup_insert_eq, lookup_empty in H. discriminate.
Qed.

Lemma recent_not_empty m h d : recent m h d <> ∅.
Proof.
  unfold recent. intros H.
  apply (f_equal (fun m : gmap string Z => m !! "1d")) in H.
  rewrite lookup_insert_eq, lookup_empty in H. discriminate.
Qed.

(** Every known request is answered with a reply that counts as true. *)
Lemma known_request_reply (E : env) (request : string) :
  request ∈ known ->
  exists r, process_request E request = Return r /\ truthy r = true /\
            ((exists counts, r = Counts counts) \/ r = Failure "Database unavailable").
Proof.
  intros Hknown. unfold known in Hknown.
  repeat (apply elem_of_cons in Hknown as [->|Hknown]).
  - destruct (counted_reply (pool E)) as (counts & Hrun & Htotal & _).
    exists (Counts counts). split; [exact Hrun|]. split; [|eauto].
    simpl. rewrite bool_decide_eq_false_2; [reflexivity|].
    intros ->. rewrite lookup_empty in Htotal. discriminate.
  - unfold process_request. cbn [String.eqb Ascii.eqb Bool.eqb orb]. cbv zeta.
    destruct (fetch_times E _ _) as [items|]; [|eexists; repeat split; eauto].
    change fresh_response with (recent 0 0 0). rewrite count_recent_spec.
    eexists. split; [reflexivity|]. split; [|eauto].
    simpl. rewrite bool_decide_eq_false_2; [reflexivity|apply recent_not_empty].
  - unfold process_request. cbn [String.eqb Ascii.eqb Bool.eqb orb]. cbv zeta.
    destruct (fetch_times E _ _) as [items|]; [|eexists; repeat split; eauto].
    change fresh_response with (recent 0 0 0). rewrite count_recent_spec.
    eexists. split; [reflexivity|]. split; [|eauto].
    simpl. rewrite bool_decide_eq_false_2; [reflexivity|apply recent_not_empty].
  - unfold process_request. cbn [String.eqb Ascii.eqb Bool.eqb orb].
    destruct (fetch_jobs E _) as [jobs|]; [|eexists; repeat split; eauto].
    destruct (counted_reply jobs) as (counts & Hrun & Htotal & _).
    exists (Counts counts). split; [exact Hrun|]. split; [|eauto].
    simpl. rewrite bool_decide_eq_false_2; [reflexivity|].
    intros ->. rewrite lookup_empty in Htotal. discriminate.
  - now apply elem_of_nil in Hknown.
Qed.

(** X17. [process_request] never fails on a request name. It returns
    [False] for every name other than [workers], [posts], [threads] and
    [jobs], and for these four a reply that counts as true: a dictionary of
    counts that is not empty, or the dictionary that reports the database as
    unavailable. So the truth value of the reply tells whether the request
    was known. *)
Theorem process_request_spec (E : env) (request : string) :
  exists r,
    process_request E request = Return r /\
    (r = NoReply <-> request ∉ known) /\
    (truthy r = false <-> request ∉ known) /\
    (r = NoReply \/ (exists counts, r = Counts counts /\ counts <> ∅) \/
     r = Failure "Database unavailable").
Proof.
  destruct (decide (request ∈ known)) as [Hknown|Hunknown].
  - destruct (known_request_reply E request Hknown) as (r & Hrun & Htrue & Hshape).
    exists r. split; [exact Hrun|].
    split; [|split].
    + split; [intros ->; discriminate|contradiction].
    + split; [congruence|contradiction].
    + right. destruct Hshape as [[counts ->] | ->]; [left|now right].
      exists counts. split; [reflexivity|].
      simpl in Htrue. apply negb_true_iff, bool_decide_eq_false in Htrue. exact Htrue.
  - exists NoReply. split; [|repeat split; auto].
    unfold process_request, known in *.
    destruct (String.eqb_spec request "workers") as [->|_];
      [exfalso; apply Hunknown; set_solver|].
    destruct (String.eqb_spec request "posts") as [->|_];
      [exfalso; apply Hunknown; set_solver|].
    destruct (String.eqb_spec request "threads") as [->|_];
      [exfalso; apply Hunknown; set_solver|].
    destruct (String.eqb_spec request "jobs") as [->|_];
      [exfalso; apply Hunknown; set_solver|].
    reflexivity.
Qed.

End ApiFacts.

Lemma workers_and_jobs_are_counted_witness :
  exists counts,
    Api.process_request Api.sample "jobs" = Return (Api.Counts counts) /\
    counts !! "total" = Some 3 /\
    counts !! "query" = Some 2.
Proof.
  destruct (proj2 (ApiFacts.workers_and_jobs_are_counted Api.sample)
              ["query"; "scrape"; "query"] eq_refl) as (counts & Hrun & Htotal & Hnames).
  exists counts. split; [exact Hrun|]. split; [exact Htotal|].
  rewrite (Hnames "query") by discriminate. reflexivity.
Defined.

Lemma recent_items_are_counted_witness :
  Api.process_request Api.sample "posts" = Return (Api.Counts (Api.recent 1 2 3)).
Proof.
  refine (proj1 (ApiFacts.recent_items_are_counted Api.sample "posts"
                   [1499999990; 1499999000; 1499950000] _ _)).
  - left. reflexivity.
  - vm_compute. reflexivity.
Defined.

(** ** The migration agent *)

Module MigrateFacts.
Import Migrate.

Lemma below_1000_spec (n : N) : (n < 1000)%N -> n ∈ below_1000.
Proof.
  intros Hn. unfold below_1000. apply list_elem_of_fmap.
  exists (N.to_nat n). split; [now rewrite N2Nat.id|].
  apply elem_of_seq. lia.
Qed.

Lemma forallb_below_1000 (P : N -> bool) :
  forallb P below_1000 = true -> forall n, (n < 1000)%N -> P n = true.
Proof.
  intros Hall n Hn. rewrite forallb_forall in Hall.
  apply Hall. apply list_elem_of_In. now apply below_1000_spec.
Qed.

Lemma numerals_ok : forallb numeral_ok below_1000 = true.
Proof. vm_compute. reflexivity. Qed.

Lemma numeral_facts (n : N) :
  (n < 1000)%N ->
  zfill 3 (lit (pretty n)) = three n /\
  Forall (fun c => is_space c = false /\ c <> 46%N) (lit (pretty n)) /\
  lit (pretty n) <> [].
Proof.
  intros Hn. pose proof (forallb_below_1000 _ numerals_ok n Hn) as H.
  unfold numeral_ok in H. apply andb_true_iff in H as [H Hne].
  apply andb_true_iff in H as [Hfill Hall].
  split; [now apply bool_decide_eq_true in Hfill|]. split.
  - apply Forall_forall. intros c Hc. rewrite forallb_forall in Hall.
    specialize (Hall c (proj1 (list_elem_of_In _ _) Hc)).
    apply andb_true_iff in Hall as [Hs Hd].
    split; [now apply negb_true_iff in Hs|].
    apply negb_true_iff in Hd. now apply N.eqb_neq in Hd.
  - apply negb_true_iff in Hne. now apply bool_decide_eq_false in Hne.
Qed.

Lemma lstrip_id (s : str) :
  match s with c :: _ => is_space c = false | [] => True end -> lstrip s = s.
Proof. destruct s as [|c s]; simpl; [reflexivity|]. now intros ->. Qed.

Lemma split_no_sep sep (s : str) : sep ∉ s -> split sep s = [s].
Proof.
  induction s as [|c s IH]; [reflexivity|].
  intros Hout. apply not_elem_of_cons in Hout as [Hne Hout].
  simpl. rewrite (proj2 (N.eqb_neq c sep)) by congruence.
  now rewrite IH.
Qed.

Lemma split_at_sep sep (s t : str) :
  sep ∉ s -> split sep (s ++ sep :: t) = s :: split sep t.
Proof.
  induction s as [|c s IH]; intros Hout; simpl.
  - now rewrite N.eqb_refl.
  - apply not_elem_of_cons in Hout as [Hne Hout].
    rewrite (proj2 (N.eqb_neq c sep)) by congruence.
    now rewrite IH.
Qed.

Lemma compare_app (x y s t : str) :
  length x = length y ->
  compare (x ++ s) (y ++ t) =
  match compare x y with Eq => compare s t | other => other end.
Proof.
  revert y. induction x as [|c x IH]; intros [|d y] Hlen; try discriminate.
  - reflexivity.
  - simpl. destruct (N.compare c d); [|reflexivity..].
    apply IH. now injection Hlen.
Qed.

Lemma all_digits_ok : forallb digits_ok below_1000 = true.
Proof. vm_compute. reflexivity. Qed.

Lemma compare_digits (d1 d2 d3 e1 e2 e3 : N) :
  (d1 < 10 -> d2 < 10 -> d3 < 10 -> e1 < 10 -> e2 < 10 -> e3 < 10 ->
   compare [48 + d1; 48 + d2; 48 + d3] [48 + e1; 48 + e2; 48 + e3] =
   N.compare (100 * d1 + 10 * d2 + d3) (100 * e1 + 10 * e2 + e3))%N.
Proof.
  intros B1 B2 B3 B4 B5 B6. simpl.
  destruct (N.compare_spec (48 + d1) (48 + e1)) as [H1|H1|H1];
    [destruct (N.compare_spec (48 + d2) (48 + e2)) as [H2|H2|H2];
       [destruct (N.compare_spec (48 + d3) (48 + e3)) as [H3|H3|H3]|..]|..];
    symmetry;
    first [ apply N.compare_eq_iff; lia | apply N.compare_lt_iff; lia
          | apply N.compare_gt_iff; lia ].
Qed.

Lemma compare_three (n m : N) :
  (n < 1000)%N -> (m < 1000)%N -> compare (three n) (three m) = N.compare n m.
Proof.
  intros Hn Hm.
  pose proof (forallb_below_1000 _ all_digits_ok n Hn) as Dn.
  pose proof (forallb_below_1000 _ all_digits_ok m Hm) as Dm.
  unfold digits_ok in Dn, Dm.
  repeat match goal with
         | H : (_ && _)%bool = true |- _ => apply andb_true_iff in H as [? ?]
         | H : (_ <? _)%N = true |- _ => apply N.ltb_lt in H
         | H : (_ =? _)%N = true |- _ => apply N.eqb_eq in H
         end.
  unfold three. rewrite compare_digits by assumption. congruence.
Qed.

Lemma lstrip_no_space (s : str) :
  Forall (fun c => is_space c = false) s -> lstrip s = s.
Proof. intros [|c s' Hc _]; simpl; [reflexivity|]. now rewrite Hc. Qed.

Lemma strip_no_space (s : str) :
  Forall (fun c => is_space c = false) s -> strip s = s.
Proof.
  intros Hs. unfold strip. rewrite (lstrip_no_space s Hs).
  rewrite lstrip_no_space by now apply Forall_reverse.
  apply reverse_involutive.
Qed.

(** The comparable form of a version of two numerals below 1000. *)
Lemma comparable_dotted (a b : N) :
  (a < 1000)%N -> (b < 1000)%N ->
  make_version_comparable (dotted a b) = Some (three a ++ lit "." ++ three b).
Proof.
  intros Ha Hb.
  destruct (numeral_facts a Ha) as (Hfa & Hca & _).
  destruct (numeral_facts b Hb) as (Hfb & Hcb & _).
  unfold make_version_comparable, dotted.
  rewrite strip_no_space.
  - change (lit ".") with [46%N]. cbn [app].
    rewrite split_at_sep.
    + rewrite split_no_sep.
      * cbn. now rewrite Hfa, Hfb.
      * intros Hin. rewrite Forall_forall in Hcb.
        now destruct (Hcb _ Hin).
    + intros Hin. rewrite Forall_forall in Hca. now destruct (Hca _ Hin).
  - apply Forall_app. split; [|apply Forall_app; split].
    + eapply Forall_impl; [exact Hca|]. now intros c [? _].
    + repeat constructor.
    + eapply Forall_impl; [exact Hcb|]. now intros c [? _].
Qed.

(** X19. For versions of two numerals below 1000 the comparable forms are
    ordered as the versions are, by major and then by minor number: 1.9
    comes before 1.10, which the strings themselves do not. *)
Theorem comparable_versions_are_ordered (a b c d : N) :
  (a < 1000)%N -> (b < 1000)%N -> (c < 1000)%N -> (d < 1000)%N ->
  exists x y,
    make_version_comparable (dotted a b) = Some x /\
    make_version_comparable (dotted c d) = Some y /\
    length x = 7%nat /\ length y = 7%nat /\
    compare x y = match N.compare a c with
                  | Eq => N.compare b d
                  | other => other
                  end.
Proof.
  intros Ha Hb Hc Hd.
  exists (three a ++ lit "." ++ three b), (three c ++ lit "." ++ three d).
  split; [now apply comparable_dotted|].
  split; [now apply comparable_dotted|].
  split; [reflexivity|]. split; [reflexivity|].
  rewrite compare_app by reflexivity.
  rewrite compare_three by assumption.
  destruct (N.compare a c); [|reflexivity..].
  change (lit ".") with [46%N]. cbn [app compare N.compare].
  change (compare (three b) (three d) = N.compare b d).
  now apply compare_three.
Qed.

Lemma split_not_nil sep (s : str) : split sep s <> [].
Proof.
  destruct s as [|c s]; simpl; [discriminate|].
  destruct (c =? sep)%N; [discriminate|].
  destruct (split sep s); discriminate.
Qed.

Lemma split_second sep (s : str) : split sep s !! 1%nat = None <-> sep ∉ s.
Proof.
  induction s as [|c s IH]; simpl.
  - split; [intros _; apply not_elem_of_nil|reflexivity].
  - destruct (N.eqb_spec c sep) as [->|Hne].
    + pose proof (split_not_nil sep s) as Hnil.
      destruct (split sep s) as [|part parts]; [contradiction|]. simpl.
      split; [discriminate|]. intros Hout. exfalso. apply Hout. left.
    + pose proof (split_not_nil sep s) as Hnil.
      destruct (split sep s) as [|part parts]; [contradiction|].
      change (((c :: part) :: parts) !! 1%nat) with ((part :: parts) !! 1%nat).
      rewrite IH. rewrite not_elem_of_cons. split; [|tauto].
      intros Hout. split; [congruence|exact Hout].
Qed.

Lemma zfill_length width (s : str) :
  length (zfill width s) = Nat.max width (length s).
Proof.
  unfold zfill. destruct (Nat.leb_spec width (length s)) as [Hle|Hlt]; [lia|].
  destruct s as [|c s].
  - rewrite length_replicate. simpl. lia.
  - destruct ((c =? 43) || (c =? 45))%N; simpl;
      rewrite length_app, length_replicate; simpl in *; lia.
Qed.

(** X20. [make_version_comparable] fails, with the [IndexError] of
    [version[1]], exactly for a version without a dot. What it returns
    otherwise are two components of at least three characters each, joined
    by a dot: components are filled up, never cut. *)
Theorem make_version_comparable_result (version : str) :
  (make_version_comparable version = None <-> 46%N ∉ strip version) /\
  (forall comparable,
     make_version_comparable version = Some comparable ->
     exists major minor,
       comparable = major ++ 46%N :: minor /\
       (3 <= length major)%nat /\ (3 <= length minor)%nat).
Proof.
  unfold make_version_comparable.
  pose proof (split_not_nil 46%N (strip version)) as Hnil.
  pose proof (split_second 46%N (strip version)) as Hsecond.
  destruct (split 46%N (strip version)) as [|major [|minor rest]];
    [contradiction|..]; cbn in *.
  - split; [tauto|discriminate].
  - split.
    + split; [discriminate|]. intros Hout. now apply Hsecond in Hout.
    + intros comparable [= <-].
      exists (zfill 3 major), (zfill 3 minor).
      split; [reflexivity|]. rewrite !zfill_length. lia.
Qed.

Lemma compare_flip (s : str) : forall t, compare t s = CompOpp (compare s t).
Proof.
  induction s as [|c s IH]; intros [|d t]; simpl; try reflexivity.
  rewrite (N.compare_antisym c d).
  destruct (N.compare c d); simpl; auto.
Qed.

Lemma compare_refl (s : str) : compare s s = Eq.
Proof. induction s as [|c s IH]; simpl; [reflexivity|]. now rewrite N.compare_refl. Qed.

Lemma le_trans (s : str) :
  forall t u, le s t = true -> le t u = true -> le s u = true.
Proof.
  unfold le. induction s as [|c s IH]; intros [|d t] [|e u]; simpl; try easy.
  destruct (N.compare_spec c d) as [->|Hcd|Hcd]; [| |discriminate].
  - destruct (N.compare_spec d e); [apply IH|reflexivity|discriminate].
  - destruct (N.compare_spec d e) as [<-|Hde|Hde]; [| |discriminate]; intros _ _.
    + now rewrite (proj2 (N.compare_lt_iff c d) Hcd).
    + now rewrite (proj2 (N.compare_lt_iff c e)) by lia.
Qed.

Lemma not_lt_le (s t : str) : lt s t = false -> le t s = true.
Proof. unfold lt, le. rewrite (compare_flip s t). now destruct (compare s t). Qed.

Lemma lt_le (s t : str) : lt s t = true -> le s t = true.
Proof. unfold lt, le. now destruct (compare s t). Qed.

Lemma gt_le (s t : str) : gt s t = false <-> le s t = true.
Proof. unfold gt, le. now destruct (compare s t). Qed.

Section Sorting.

Let by_key (x y : str * str) : Prop := le x.1 y.1 = true.

Lemma insert_by_key_perm item sorted : insert_by_key item sorted ≡ₚ item :: sorted.
Proof.
  induction sorted as [|other rest IH]; simpl; [reflexivity|].
  destruct (lt other.1 item.1); [|reflexivity].
  rewrite IH. apply Permutation_swap.
Qed.

Lemma sort_by_key_perm items : sort_by_key items ≡ₚ items.
Proof.
  induction items as [|item items IH]; simpl; [reflexivity|].
  now rewrite insert_by_key_perm, IH.
Qed.

Lemma insert_by_key_sorted item sorted :
  StronglySorted by_key sorted -> StronglySorted by_key (insert_by_key item sorted).
Proof.
  induction 1 as [|other rest Hrest IH Hall]; simpl.
  - repeat constructor.
  - destruct (lt other.1 item.1) eqn:Hlt.
    + constructor; [exact IH|].
      rewrite insert_by_key_perm. constructor; [|exact Hall].
      now apply lt_le.
    + apply not_lt_le in Hlt.
      constructor; [now constructor|].
      constructor; [exact Hlt|].
      eapply Forall_impl; [exact Hall|].
      intros x Hx. exact (le_trans _ _ _ Hlt Hx).
Qed.

Lemma sort_by_key_sorted items : StronglySorted by_key (sort_by_key items).
Proof.
  induction items as [|item items IH]; simpl; [constructor|].
  now apply insert_by_key_sorted.
Qed.

Lemma sorted_files (keyed : list (str * str)) :
  Forall (fun x => x.1 = key_of x.2) keyed ->
  StronglySorted by_key keyed ->
  StronglySorted (fun f g => le (key_of f) (key_of g) = true) (snd <$> keyed).
Proof.
  intros Hkeys Hsorted. induction Hsorted as [|x rest Hrest IH Hall]; simpl.
  - constructor.
  - apply Forall_cons in Hkeys as [Hx Hkeys].
    constructor; [now apply IH|].
    apply Forall_fmap. rewrite Forall_forall in Hall, Hkeys |- *.
    intros y Hy. unfold by_key in Hall. simpl.
    rewrite <- Hx, <- (Hkeys y Hy). now apply Hall.
Qed.

End Sorting.

(** The collecting loop is a filter; it fails on a file whose stem does not
    name two versions. *)
Lemma collect_filter current target files :
  forall acc out,
    collect current target files acc = Some out ->
    out = acc ++ filter (fun file => wanted current target file = true) files.
Proof.
  induction files as [|file files IH]; intros acc out; simpl.
  - intros [= <-]. now rewrite app_nil_r.
  - rewrite filter_cons.
    assert (Hw : wanted current target file =
                 match migrate_minimum file, migrate_target file with
                 | Some minimum, Some target' =>
                     ge minimum current && le target' target
                 | _, _ => false
                 end) by reflexivity.
    destruct (migrate_minimum file) as [minimum|]; [|discriminate].
    destruct (migrate_target file) as [target'|]; [|discriminate]. simpl.
    destruct (ge minimum current && le target' target).
    + rewrite decide_True by exact Hw.
      intros Hrun. apply IH in Hrun as ->. now rewrite <- app_assoc.
    + rewrite decide_False by (rewrite Hw; discriminate). apply IH.
Qed.

Lemma wanted_has_key current target file :
  wanted current target file = true -> is_Some (migrate_minimum file).
Proof. unfold wanted. destruct (migrate_minimum file); [eauto|discriminate]. Qed.

Lemma keyed_files (files : list str) :
  Forall (fun file => is_Some (migrate_minimum file)) files ->
  mapM (fun file => key ← migrate_minimum file; Some (key, file)) files =
  Some ((fun file => (key_of file, file)) <$> files).
Proof.
  induction 1 as [|file files [key Hkey] _ IH]; [reflexivity|].
  cbn [mapM]. rewrite IH, Hkey, fmap_cons.
  assert (Hdefault : key_of file = key) by (unfold key_of; now rewrite Hkey).
  rewrite Hdefault. reflexivity.
Qed.

Lemma sorted_by_minimum_spec (files : list str) :
  Forall (fun file => is_Some (migrate_minimum file)) files ->
  exists sorted,
    sorted_by_minimum files = Some sorted /\
    sorted ≡ₚ files /\
    StronglySorted (fun f g => le (key_of f) (key_of g) = true) sorted.
Proof.
  intros Hkeys. unfold sorted_by_minimum. rewrite (keyed_files files Hkeys).
  eexists. split; [reflexivity|].
  set (keyed := (fun file => (key_of file, file)) <$> files).
  assert (Hfiles : snd <$> keyed = files).
  { subst keyed. rewrite <- list_fmap_compose. apply list_fmap_id. }
  split.
  - rewrite sort_by_key_perm. now rewrite Hfiles.
  - apply sorted_files; [|apply sort_by_key_sorted].
    rewrite sort_by_key_perm. subst keyed.
    apply Forall_fmap, Forall_forall. now intros.
Qed.

(** X21. When the script gets as far as a list of migration scripts to run,
    both versions were comparable and differ, the current one is not the
    later one, and the list is not empty: it holds exactly the files the
    collecting loop wanted, however the directory listed them, ordered by
    the version they start from. *)
Theorem plan_runs_the_wanted_scripts_in_order current_file target_file files scripts :
  plan current_file target_file files = Some (Run scripts) ->
  exists text current_version_c target_version_c,
    target_file = Some text /\
    current_of current_file <> read_version text /\
    make_version_comparable (current_of current_file) = Some current_version_c /\
    make_version_comparable (read_version text) = Some target_version_c /\
    le current_version_c target_version_c = true /\
    scripts <> [] /\
    scripts ≡ₚ filter (fun file => wanted current_version_c target_version_c file = true)
                 files /\
    StronglySorted (fun f g => le (key_of f) (key_of g) = true) scripts.
Proof.
  unfold plan. fold (current_of current_file).
  destruct target_file as [text|]; [|discriminate].
  destruct (make_version_comparable (current_of current_file))
    as [current|] eqn:Hcurrent; [|discriminate].
  destruct (make_version_comparable (read_version text))
    as [target|] eqn:Htarget; [|discriminate].
  cbn [mbind option_bind].
  destruct (bool_decide_reflect (current_of current_file = read_version text))
    as [|Hdiffer]; [discriminate|].
  destruct (negb _); [discriminate|].
  destruct (gt current target) eqn:Hgt; [discriminate|].
  destruct (collect current target files []) as [selected|] eqn:Hcollect;
    [|discriminate].
  cbn [mbind option_bind].
  destruct (bool_decide_reflect (selected = [])) as [|Hsome]; [discriminate|].
  apply collect_filter in Hcollect. simpl in Hcollect.
  destruct (sorted_by_minimum_spec selected) as (sorted & -> & Hperm & Hsorted).
  { subst selected. apply Forall_forall. intros file Hin.
    apply list_elem_of_filter in Hin as [Hin _].
    now apply wanted_has_key in Hin. }
  cbn [mbind option_bind]. intros [= <-].
  exists text, current, target.
  split; [reflexivity|]. split; [exact Hdiffer|].
  split; [reflexivity|]. split; [exact Htarget|].
  split; [now apply gt_le|].
  split; [|split; [|exact Hsorted]].
  - intros ->. apply Permutation_nil_l in Hperm. congruence.
  - now rewrite Hperm, Hcollect.
Qed.

(** X22. Components are filled up to three characters and never cut, so
    the order holds only below 1000: version 1.1000 compares as earlier
    than 1.999, and the test for a different major version, which reads the
    first three characters, takes 1000.1 and 1001.2 for the same major
    version. *)
Theorem three_digits_only :
  make_version_comparable (lit "1.1000") = Some (lit "001.1000") /\
  make_version_comparable (lit "1.999") = Some (lit "001.999") /\
  lt (lit "001.1000") (lit "001.999") = true /\
  plan (Some (lit "1000.1")) (Some (lit "1001.2")) [] =
    Some (Exit 0 "No migration scripts to run. You're good to go.") /\
  plan (Some (lit "1.9")) (Some (lit "2.0")) [] =
    Some (Exit 1 "Cannot migrate between different major versions.").
Proof. repeat split; vm_compute; reflexivity. Qed.

End MigrateFacts.

Lemma comparable_versions_are_ordered_witness :
  exists x y,
    Migrate.make_version_comparable (Migrate.lit "1.9") = Some x /\
    Migrate.make_version_comparable (Migrate.lit "1.10") = Some y /\
    Migrate.compare x y = Lt /\
    Migrate.compare (Migrate.lit "1.9") (Migrate.lit "1.10") = Gt.
Proof.
  destruct (MigrateFacts.comparable_versions_are_ordered 1 9 1 10)
    as (x & y & Hx & Hy & _ & _ & Hxy); [reflexivity..|].
  exists x, y. split; [exact Hx|]. split; [exact Hy|].
  split; [exact Hxy|reflexivity].
Defined.

Lemma make_version_comparable_result_witness :
  exists major minor,
    Migrate.lit "001.009" = major ++ 46%N :: minor /\
    (3 <= length major)%nat /\ (3 <= length minor)%nat.
Proof.
  apply (proj2 (MigrateFacts.make_version_comparable_result (Migrate.lit " 1.9.3"))).
  reflexivity.
Defined.

Lemma plan_runs_the_wanted_scripts_in_order_witness :
  Migrate.plan None (Some (Migrate.version_file "1.12")) Migrate.stems =
    Some (Migrate.Run [Migrate.lit "migrate-1.9-1.10"; Migrate.lit "migrate-1.10-1.11"]) /\
  StronglySorted
    (fun f g => Migrate.le (Migrate.key_of f) (Migrate.key_of g) = true)
    [Migrate.lit "migrate-1.9-1.10"; Migrate.lit "migrate-1.10-1.11"].
Proof.
  assert (Hrun : Migrate.plan None (Some (Migrate.version_file "1.12")) Migrate.stems =
                 Some (Migrate.Run [Migrate.lit "migrate-1.9-1.10";
                                    Migrate.lit "migrate-1.10-1.11"]))
    by (vm_compute; reflexivity).
  split; [exact Hrun|].
  destruct (MigrateFacts.plan_runs_the_wanted_scripts_in_order _ _ _ _ Hrun)
    as (text & c & t & _ & _ & _ & _ & _ & _ & _ & Hsorted).
  exact Hsorted.
Defined.
